(** * aztec-connect: service-worker frontend, contract deployment and
    DeFi form validation

  A shallow embedding of four TypeScript sources:

  - [ServiceWorkerFrontend.initComponents] (sdk, service worker frontend),
  - [getSigner], [deploy], [deployContracts] (blockchain/src/deploy/deploy_contracts.ts),
  - [validateDefiForm] (zk-money, defi_form_validation.ts),
  - [deployMockBridge], [mockAsyncBridge]
    (blockchain/src/contracts/rollup_processor/fixtures/setup_defi_bridges.ts).

  Asynchronous and throwing code is written in a small state-and-outcome
  monad; everything the sources call but do not define (the transport, the
  wasm loader, ethers, the deploy scripts) is an explicit environment record,
  so that every theorem holds for every behaviour of those collaborators. *)

From Stdlib Require Import ZArith Lia List.
From Stdlib Require HexString.
From stdpp Require Import gmap strings list.

Local Open Scope Z_scope.
Local Set Warnings "-register-all".

(** ** JavaScript values, errors and outcomes *)

Module Js.

(** The serialisable values that travel in messages. *)
Inductive JsVal : Type :=
| JUndefined
| JBool (b : bool)
| JNum (n : Z)
| JStr (s : string)
| JArr (items : list JsVal)
| JObj (fields : list (string * JsVal)).

Inductive JsError : Type :=
| Error (message : string)        (* new Error(message) *)
| TypeError (message : string)    (* raised by the language itself *)
| Thrown (v : JsVal).             (* anything a collaborator rejects with *)

(** How a call or an awaited promise ends: a value, a thrown error (a
    rejected promise), or a promise that never settles. *)
Inductive Outcome (A : Type) : Type :=
| Resolved (a : A)
| Rejected (e : JsError)
| Pending.
Arguments Resolved {A} a.
Arguments Rejected {A} e.
Arguments Pending {A}.

(** Code running over a state [S]: every step sees the state left by the
    step before; an outcome other than [Resolved] ends the run there. *)
Definition M (S A : Type) : Type := S -> Outcome A * S.

Definition ret {S A} (a : A) : M S A := fun s => (Resolved a, s).

Definition bind {S A B} (m : M S A) (k : A -> M S B) : M S B :=
  fun s =>
    match m s with
    | (Resolved a, s') => k a s'
    | (Rejected e, s') => (Rejected e, s')
    | (Pending, s') => (Pending, s')
    end.

Definition throw {S A} (e : JsError) : M S A := fun s => (Rejected e, s).

Definition modify {S} (f : S -> S) : M S unit := fun s => (Resolved tt, f s).

(** [await p]: continue with the value of [p], re-raise its rejection. *)
Definition await {S A} (p : S -> Outcome A) : M S A := fun s => (p s, s).

(** JavaScript truthiness of an optional string: [undefined] and the empty
    string are falsy. *)
Definition truthy (o : option string) : bool :=
  match o with
  | Some s => negb (String.eqb s "")
  | None => false
  end.

End Js.

Import Js.

Declare Scope js_scope.
Notation "'let*' x ':=' m 'in' k" := (bind m (fun x => k))
  (at level 10, x name, m at level 100, k at level 200) : js_scope.
Local Open Scope js_scope.

(** ** zk-money: defi_form_validation.ts *)

Module DefiForm.

(** [Amount]: an asset id and a bigint number of base units. *)
Record Amount : Type := { id : Z; baseUnits : Z }.

(** [AmountFactory] and [RemoteAsset] are only tested for presence. *)
Inductive AmountFactory : Type := TheAmountFactory.
Record RemoteAsset : Type := { assetId : Z }.

Record DefiFormFields : Type := { amountStr : string; speed : Z }.

Record DefiFormValidationInput : Type := {
  fields : DefiFormFields;
  amountFactory : option AmountFactory;
  depositAsset : RemoteAsset;
  targetDepositAmount : option Amount;
  balanceInTargetAsset : option Z;
  feeAmount : option Amount;
  balanceInFeePayingAsset : option Z;
  transactionLimit : option Z
}.

Record DefiComposerPayload : Type := {
  payloadTargetDepositAmount : Amount;
  payloadFeeAmount : Amount
}.

(** Every field but [input] is optional in the source interface. *)
Record DefiFormValidationResult : Type := {
  loading : option bool;
  unrecognisedTargetAmount : option bool;
  insufficientTargetAssetBalance : option bool;
  insufficientFeePayingAssetBalance : option bool;
  mustAllowForFee : option bool;
  beyondTransactionLimit : option bool;
  noAmount : option bool;
  isValid : option bool;
  validPayload : option DefiComposerPayload;
  maxOutput : option Z;
  input : DefiFormValidationInput
}.

(** [min] of the app's bigint helpers. *)
Definition min (a b : Z) : Z := if a <? b then a else b.

Definition validateDefiForm (i : DefiFormValidationInput) : DefiFormValidationResult :=
  match amountFactory i, feeAmount i, balanceInTargetAsset i, balanceInFeePayingAsset i with
  | Some _, Some fee, Some balTarget, Some balFee =>
    match targetDepositAmount i, transactionLimit i with
    | Some target, Some limit =>
      let targetAssetIsPayingFee := id target =? id fee in
      let feeInTargetAsset := if targetAssetIsPayingFee then baseUnits fee else 0 in
      let requiredInputInTargetAssetCoveringCosts := baseUnits target + feeInTargetAsset in
      let maxOut := min (balTarget - feeInTargetAsset) limit in
      let beyond := baseUnits target >? limit in
      let none := baseUnits target <=? 0 in
      let insufficientTarget := balTarget <? requiredInputInTargetAssetCoveringCosts in
      let insufficientFee := balFee <? baseUnits fee in
      let mustAllow := insufficientTarget && (balTarget >=? baseUnits target) in
      let valid :=
        negb insufficientTarget && negb insufficientFee && negb beyond && negb none in
      let payload :=
        if valid
        then Some {| payloadTargetDepositAmount := target; payloadFeeAmount := fee |}
        else None in
      {| loading := None; unrecognisedTargetAmount := None;
         insufficientTargetAssetBalance := Some insufficientTarget;
         insufficientFeePayingAssetBalance := Some insufficientFee;
         mustAllowForFee := Some mustAllow;
         beyondTransactionLimit := Some beyond;
         noAmount := Some none;
         isValid := Some valid;
         validPayload := payload;
         maxOutput := Some maxOut;
         input := i |}
    | _, _ =>
      {| loading := None; unrecognisedTargetAmount := Some true;
         insufficientTargetAssetBalance := None;
         insufficientFeePayingAssetBalance := None;
         mustAllowForFee := None; beyondTransactionLimit := None;
         noAmount := None; isValid := None; validPayload := None;
         maxOutput := None; input := i |}
    end
  | _, _, _, _ =>
    {| loading := Some true; unrecognisedTargetAmount := None;
       insufficientTargetAssetBalance := None;
       insufficientFeePayingAssetBalance := None;
       mustAllowForFee := None; beyondTransactionLimit := None;
       noAmount := None; isValid := None; validPayload := None;
       maxOutput := None; input := i |}
  end.

(** All six optional inputs are present. *)
Definition fullyPopulated (i : DefiFormValidationInput) : Prop :=
  is_Some (amountFactory i) /\ is_Some (feeAmount i) /\
  is_Some (balanceInTargetAsset i) /\ is_Some (balanceInFeePayingAsset i) /\
  is_Some (transactionLimit i) /\ is_Some (targetDepositAmount i).

Definition sampleInput : DefiFormValidationInput :=
  {| fields := {| amountStr := "5"; speed := 0 |};
     amountFactory := Some TheAmountFactory;
     depositAsset := {| assetId := 0 |};
     targetDepositAmount := Some {| id := 0; baseUnits := 5 |};
     balanceInTargetAsset := Some 10;
     feeAmount := Some {| id := 0; baseUnits := 2 |};
     balanceInFeePayingAsset := Some 10;
     transactionLimit := Some 8 |}.

End DefiForm.

(** ** blockchain: deploy/deploy_contracts.ts *)

Module Deploy.

(** An [EthAddress] is carried as its hexadecimal text. *)
Definition EthAddress : Type := string.

(** What [getSigner] builds with ethers: a wallet on the provider when a
    private key is given, else the provider's account 0; always wrapped in
    a [NonceManager]. *)
Inductive BaseSigner : Type :=
| Wallet (privateKey : string) (providerHost : string)
| ProviderSigner (providerHost : string) (index : Z).

Inductive Signer : Type :=
| NonceManager (inner : BaseSigner).

(** [TreeInitData]: only the fields the procedure reads; roots as hex text. *)
Record Roots : Type := { dataRoot : string; nullRoot : string; rootsRoot : string }.
Record TreeInitData : Type := { dataTreeSize : Z; roots : Roots }.

(** The contracts a deploy script returns, by address. *)
Record Contracts : Type := {
  rollup : EthAddress;
  priceFeeds : list EthAddress;
  feeDistributor : EthAddress;
  permitHelper : EthAddress;
  faucet : EthAddress;
  bridgeDataProvider : EthAddress
}.

Record EnvVars : Type := {
  ROLLUP_CONTRACT_ADDRESS : string;
  PERMIT_HELPER_CONTRACT_ADDRESS : string;
  FEE_DISTRIBUTOR_ADDRESS : string;
  PRICE_FEED_CONTRACT_ADDRESSES : string;
  FAUCET_CONTRACT_ADDRESS : string;
  BRIDGE_DATA_PROVIDER_CONTRACT_ADDRESS : string
}.

(** The three deploy scripts, each with the arguments [deploy] hands it. *)
Inductive DeployCall : Type :=
| deployMainnet (signer : Signer) (treeInitData : TreeInitData) (vk : string)
    (faucetOperator rollupProvider : option EthAddress)
| deployMainnetFork (host : string) (signer : Signer) (treeInitData : TreeInitData)
    (vk : string) (faucetOperator rollupProvider : option EthAddress)
| deployDev (signer : Signer) (treeInitData : TreeInitData) (vk : string)
    (faucetOperator rollupProvider : option EthAddress).

Inductive Network : Type := Mainnet | MainnetFork | Dev.

Definition networkOf (c : DeployCall) : Network :=
  match c with
  | deployMainnet _ _ _ _ _ => Mainnet
  | deployMainnetFork _ _ _ _ _ _ => MainnetFork
  | deployDev _ _ _ _ _ => Dev
  end.

(** Everything observable the procedure does, in order. *)
Inductive Effect : Type :=
| ConsoleLog (label : string) (value : JsVal)
| NewJsonRpcProvider (host : string)
| NewWallet (privateKey : string)
| ProviderGetSigner (index : Z)
| GetAddress
| GetChainId
| GetInitData (chainId : Z)
| RunDeploy (call : DeployCall).

(** The collaborators: the chain behind the provider, [InitHelpers] and the
    deploy scripts. *)
Record Env : Type := {
  newWallet : string -> option JsError;     (* what [new ethers.Wallet(key, provider)]
                                               throws for a key, if anything *)
  signerGetAddress : Signer -> Outcome string;
  signerGetChainId : Signer -> Outcome Z;
  getInitData : Z -> Outcome TreeInitData;
  runDeploy : DeployCall -> Outcome Contracts
}.

Definition Trace : Type := list Effect.

Definition emit (e : Effect) : M Trace unit := modify (fun t => t ++ [e]).

Definition optAddr (a : option EthAddress) : JsVal :=
  match a with Some s => JStr s | None => JUndefined end.

Definition getSigner (env : Env) (host privateKey : option string)
    : M Trace Signer :=
  match host with
  | Some h =>
    if truthy host then
      let* _ := emit (ConsoleLog "Json rpc provider: " (JStr h)) in
      let* _ := emit (NewJsonRpcProvider h) in
      let* signer :=
        match privateKey with
        | Some pk =>
          if truthy privateKey
          then let* _ := emit (NewWallet pk) in
               match newWallet env pk with
               | Some e => throw e
               | None => ret (Wallet pk h)
               end
          else let* _ := emit (ProviderGetSigner 0) in ret (ProviderSigner h 0)
        | None => let* _ := emit (ProviderGetSigner 0) in ret (ProviderSigner h 0)
        end in
      ret (NonceManager signer)
    else throw (Error "ETHEREUM_HOST not set.")
  | None => throw (Error "ETHEREUM_HOST not set.")
  end.

Definition deploy (host : string) (chainId : Z) (signer : Signer)
    (treeInitData : TreeInitData) (vk : string)
    (faucetOperator rollupProvider : option EthAddress) : DeployCall :=
  if chainId =? 1 then
    deployMainnet signer treeInitData vk faucetOperator rollupProvider
  else if (chainId =? 0xa57ec) || (chainId =? 0xdef) then
    deployMainnetFork host signer treeInitData vk faucetOperator rollupProvider
  else
    deployDev signer treeInitData vk faucetOperator rollupProvider.

Definition deployContracts (env : Env) (host vk privateKey : option string)
    (faucetOperator rollupProvider : option EthAddress) : M Trace EnvVars :=
  let* signer := getSigner env host privateKey in
  let* _ := emit GetAddress in
  let* signerAddress := await (fun _ => signerGetAddress env signer) in
  let* _ := emit (ConsoleLog "Signer: " (JStr signerAddress)) in
  let* _ := emit GetChainId in
  let* chainId := await (fun _ => signerGetChainId env signer) in
  let* _ := emit (ConsoleLog "Chain id: " (JNum chainId)) in
  let* _ := emit (ConsoleLog "Faucet operator: " (optAddr faucetOperator)) in
  let* _ := emit (ConsoleLog "Rollup provider: " (optAddr rollupProvider)) in
  let verificationKey := if truthy vk then default "" vk else "MockVerificationKey" in
  let* _ := emit (ConsoleLog "Verification key: " (JStr verificationKey)) in
  let* _ := emit (GetInitData chainId) in
  let* treeInitData := await (fun _ => getInitData env chainId) in
  let* _ := emit (ConsoleLog "Initial data size: " (JNum (dataTreeSize treeInitData))) in
  let* _ := emit (ConsoleLog "Initial data root: " (JStr (dataRoot (roots treeInitData)))) in
  let* _ := emit (ConsoleLog "Initial null root: " (JStr (nullRoot (roots treeInitData)))) in
  let* _ := emit (ConsoleLog "Initial root root: " (JStr (rootsRoot (roots treeInitData)))) in
  let call := deploy (default "" host) chainId signer treeInitData verificationKey
                faucetOperator rollupProvider in
  let* _ := emit (RunDeploy call) in
  let* c := await (fun _ => runDeploy env call) in
  ret {| ROLLUP_CONTRACT_ADDRESS := rollup c;
         PERMIT_HELPER_CONTRACT_ADDRESS := permitHelper c;
         FEE_DISTRIBUTOR_ADDRESS := feeDistributor c;
         PRICE_FEED_CONTRACT_ADDRESSES := String.concat "," (priceFeeds c);
         FAUCET_CONTRACT_ADDRESS := faucet c;
         BRIDGE_DATA_PROVIDER_CONTRACT_ADDRESS := bridgeDataProvider c |}.

(** A chain on which every step succeeds, for concrete runs. *)
Definition sampleTree : TreeInitData :=
  {| dataTreeSize := 0;
     roots := {| dataRoot := "00"; nullRoot := "01"; rootsRoot := "02" |} |}.

Definition sampleEnv (chain : Z) : Env :=
  {| newWallet := fun _ => None;
     signerGetAddress := fun _ => Resolved "0xf39f";
     signerGetChainId := fun _ => Resolved chain;
     getInitData := fun _ => Resolved sampleTree;
     runDeploy := fun _ =>
       Resolved {| rollup := "0xa1"; priceFeeds := ["0xb1"; "0xb2"];
                   feeDistributor := "0xc1"; permitHelper := "0xd1";
                   faucet := "0xe1"; bridgeDataProvider := "0xf1" |} |}.

End Deploy.

(** ** sdk: ServiceWorkerFrontend *)

Module Frontend.

(** A dispatch message [{ fn, args }]. *)
Record DispatchMsg : Type := { fn : string; args : list JsVal }.

Definition msgVal (m : DispatchMsg) : JsVal :=
  JObj [("fn", JStr (fn m)); ("args", JArr (args m))].

(** [BananaCoreSdkOptions]: the field [initComponents] reads, and the rest. *)
Record BananaCoreSdkOptions : Type := {
  numWorkers : option Z;
  otherOptions : list (string * JsVal)
}.

Definition optionsVal (o : BananaCoreSdkOptions) : JsVal :=
  JObj (match numWorkers o with
        | Some n => [("numWorkers", JNum n)]
        | None => []
        end ++ otherOptions o).

Definition loc : Type := nat.

(** The arrow functions of [initComponents], by what they are used as. *)
Inductive DispatchFn : Type :=
| jobQueueRequest     (* msg => transportClient.request({ fn: 'jobQueueDispatch', args: [msg] }) *)
| coreSdkRequest.     (* msg => transportClient.request({ fn: 'coreSdkDispatch', args: [msg] }) *)

Inductive SdkListener : Type :=
| closeTransport.     (* () => this.transportClient.close() *)

Inductive TransportHandler : Type :=
| relayEvent.         (* ({ fn, args }) => this[fn](...args) *)

(** The objects [initComponents] creates; references are heap locations, so
    that two holders of one object see the same listeners. *)
Inductive Obj : Type :=
| BarretenbergWasm
| WorkerPool (barretenberg : loc) (poolSize : Z)
| PooledPedersen (barretenberg workerPool : loc)
| PooledPippenger (workerPool : loc)
| PooledFftFactory (workerPool : loc)
| JobQueueDispatch (handler : DispatchFn)
| JobQueueWorker (jobQueue pedersen pippenger fftFactory : loc)
| BananaCoreSdk (dispatch : DispatchFn) (jobQueueWorker workerPool : loc)
    (listeners : gmap string (list SdkListener))
| CoreSdkClientStub (coreSdk : loc).

(** Calls that leave the frontend, in the order they are made. [Invoke] is
    the call [this[fn](...args)] made by the event handler; the calls the
    called member makes in turn follow it in the trace. *)
Inductive Effect : Type :=
| Request (msg : DispatchMsg)
| Debug (label : string) (msg : DispatchMsg)
| WasmNew
| WorkerPoolNew (barretenberg : loc) (n : Z)
| New (l : loc) (o : Obj)
| SdkOn (sdk : loc) (event : string) (listener : SdkListener)
| TransportOn (event : string) (handler : TransportHandler)
| TransportClose
| Invoke (member : string) (args : list JsVal).

(** The frontend object and what it reaches. *)
Record World : Type := {
  jobQueue : option loc;                          (* this.jobQueue *)
  coreSdk : option loc;                           (* this.coreSdk *)
  heap : gmap loc Obj;
  next : loc;
  handlers : gmap string (list TransportHandler); (* subscriptions on transportClient *)
  closed : bool;                                  (* transportClient.close() was called *)
  trace : list Effect
}.

(** [new ServiceWorkerFrontend(transportClient)]. *)
Definition newFrontend : World :=
  {| jobQueue := None; coreSdk := None; heap := ∅; next := 0%nat;
     handlers := ∅; closed := false; trace := [] |}.

Inductive Member : Type := Absent | NotCallable | Callable.

(** What a call of a member has done by the time it hands back: how the
    call ended, the calls it made meanwhile, and the frontend it left. The
    trace of [left] is not used: the trace after the call is the trace
    before it followed by [made]. *)
Record MemberRun : Type := {
  ended : Outcome unit;
  made : list Effect;
  left : World
}.

(** What the source calls without defining it. *)
Record Env : Type := {
  getNumWorkers : Z;                                     (* ../get_num_workers *)
  DESTROYED : string;                                    (* SdkEvent.DESTROYED *)
  transportRequest : World -> DispatchMsg -> Outcome JsVal;
  barretenbergNew : World -> Outcome unit;               (* BarretenbergWasm.new() *)
  workerPoolNew : World -> Z -> Outcome unit;            (* WorkerPool.new(b, n) *)
  inheritedMember : string -> Member;                    (* members no line of the class declares *)
  memberCall : World -> string -> list JsVal -> MemberRun
                                                         (* a call of a member other than
                                                            initComponents: the products of
                                                            createDispatchFn, inherited functions *)
}.

Definition log (e : Effect) : M World unit :=
  modify (fun w =>
    {| jobQueue := jobQueue w; coreSdk := coreSdk w; heap := heap w; next := next w;
       handlers := handlers w; closed := closed w; trace := trace w ++ [e] |}).

Definition alloc (o : Obj) : M World loc :=
  fun w =>
    (Resolved (next w),
     {| jobQueue := jobQueue w; coreSdk := coreSdk w;
        heap := <[next w := o]> (heap w); next := S (next w);
        handlers := handlers w; closed := closed w; trace := trace w |}).

Definition store (l : loc) (o : Obj) : M World unit :=
  modify (fun w =>
    {| jobQueue := jobQueue w; coreSdk := coreSdk w;
       heap := <[l := o]> (heap w); next := next w;
       handlers := handlers w; closed := closed w; trace := trace w |}).

Definition set_jobQueue (l : loc) : M World unit :=
  modify (fun w =>
    {| jobQueue := Some l; coreSdk := coreSdk w; heap := heap w; next := next w;
       handlers := handlers w; closed := closed w; trace := trace w |}).

Definition set_coreSdk (l : loc) : M World unit :=
  modify (fun w =>
    {| jobQueue := jobQueue w; coreSdk := Some l; heap := heap w; next := next w;
       handlers := handlers w; closed := closed w; trace := trace w |}).

(** A constructor call: the object is made and the call recorded. *)
Definition new (o : Obj) : M World loc :=
  let* l := alloc o in
  let* _ := log (New l o) in
  ret l.

(** [transportClient.request(msg)]: the call is recorded; how it settles is
    the transport's business. *)
Definition request (env : Env) (msg : DispatchMsg) : M World JsVal :=
  fun w =>
    match log (Request msg) w with
    | (_, w') => (transportRequest env w msg, w')
    end.

(** [transportClient.close()]. *)
Definition close : M World unit :=
  let* _ := log TransportClose in
  modify (fun w =>
    {| jobQueue := jobQueue w; coreSdk := coreSdk w; heap := heap w; next := next w;
       handlers := handlers w; closed := true; trace := trace w |}).

(** Modelled from the spec: the Transport's [on(eventName, handler)], which
    "subscribes to inbound out-of-band events" (the TransportClient class is
    not among the sources); handlers of one event run in subscription
    order. *)
Definition transport_on (event : string) (h : TransportHandler) : M World unit :=
  let* _ := log (TransportOn event h) in
  modify (fun w =>
    {| jobQueue := jobQueue w; coreSdk := coreSdk w; heap := heap w; next := next w;
       handlers := <[event := default [] (handlers w !! event) ++ [h]]> (handlers w);
       closed := closed w; trace := trace w |}).

(** Modelled from the spec: the session's event subscription, a "(name → set
    of listeners) mapping per endpoint" (the BananaCoreSdk class is not among
    the sources). *)
Definition sdk_on (sdk : loc) (event : string) (l : SdkListener) : M World unit :=
  fun w =>
    match heap w !! sdk with
    | Some (BananaCoreSdk d jw wp ls) =>
      (let* _ := log (SdkOn sdk event l) in
       store sdk (BananaCoreSdk d jw wp (<[event := default [] (ls !! event) ++ [l]]> ls))) w
    | _ => throw (TypeError "this.coreSdk.on is not a function") w
    end.

(** [BarretenbergWasm.new()] and [WorkerPool.new(barretenberg, numWorkers)]:
    both are awaited and may fail. *)
Definition BarretenbergWasm_new (env : Env) : M World loc :=
  let* _ := log WasmNew in
  let* _ := await (barretenbergNew env) in
  alloc BarretenbergWasm.

(** Modelled from the spec: the Worker Pool is "constructed with a
    compute-kernel factory and a pool size N" and "exposes size()" (the
    WorkerPool class is not among the sources). *)
Definition WorkerPool_new (env : Env) (barretenberg : loc) (n : Z) : M World loc :=
  let* _ := log (WorkerPoolNew barretenberg n) in
  let* _ := await (fun w => workerPoolNew env w n) in
  alloc (WorkerPool barretenberg n).

Definition size (w : World) (pool : loc) : option Z :=
  match heap w !! pool with
  | Some (WorkerPool _ n) => Some n
  | _ => None
  end.

(** The two dispatch arrows: log, then one request carrying the message. *)
Definition callDispatchFn (env : Env) (d : DispatchFn) (msg : DispatchMsg)
    : M World JsVal :=
  match d with
  | jobQueueRequest =>
    let* _ := log (Debug "job queue dispatch request: " msg) in
    request env {| fn := "jobQueueDispatch"; args := [msgVal msg] |}
  | coreSdkRequest =>
    let* _ := log (Debug "core sdk dispatch request: " msg) in
    request env {| fn := "coreSdkDispatch"; args := [msgVal msg] |}
  end.

Definition callSdkListener (l : SdkListener) : M World unit :=
  match l with
  | closeTransport => close
  end.

(** [this[name]] on the frontend object: the members the class declares,
    then whatever it inherits. *)
Definition member (env : Env) (w : World) (name : string) : Member :=
  if String.eqb name "initComponents" then Callable
  else if String.eqb name "jobQueueDispatch" then Callable
  else if String.eqb name "coreSdkDispatch" then Callable
  else if String.eqb name "transportClient" then NotCallable
  else if String.eqb name "jobQueue" then
    match jobQueue w with Some _ => NotCallable | None => Absent end
  else if String.eqb name "coreSdk" then
    match coreSdk w with Some _ => NotCallable | None => Absent end
  else inheritedMember env name.

(** The frontend after a member call that started in [w]. *)
Definition resume (w : World) (run : MemberRun) : World :=
  {| jobQueue := jobQueue (left run); coreSdk := coreSdk (left run);
     heap := heap (left run); next := next (left run);
     handlers := handlers (left run); closed := closed (left run);
     trace := trace w ++ made run |}.

(** [this.initComponents(...args)] as the handler sees it. The method is
    async: called with [options = args[0]], it runs to its first [await],
    that is, it has sent the initialization request, and hands back a
    promise that the handler does not await; it cannot throw. What it does
    once the response has arrived is no longer part of the delivery. *)
Definition relayedInitComponents (env : Env) (cargs : list JsVal) : M World unit :=
  fun w =>
    (Resolved tt,
     snd (request env {| fn := "initComponents";
                         args := [hd JUndefined cargs] |} w)).

(** [({ fn, args }) => this[fn](...args)]. A value that is not a function
    cannot be called; for the members other than [initComponents] the
    environment says what the call does. *)
Definition callTransportHandler (env : Env) (h : TransportHandler)
    (payload : DispatchMsg) : M World unit :=
  match h with
  | relayEvent =>
    fun w =>
      match member env w (fn payload) with
      | Callable =>
        (let* _ := log (Invoke (fn payload) (args payload)) in
         if String.eqb (fn payload) "initComponents"
         then relayedInitComponents env (args payload)
         else fun w1 =>
                let run := memberCall env w1 (fn payload) (args payload) in
                (ended run, resume w1 run)) w
      | _ => throw (TypeError "this[fn] is not a function") w
      end
  end.

(** Run [f] on each element in order; the first failure ends the loop. *)
Fixpoint forEach {S A} (f : A -> M S unit) (l : list A) : M S unit :=
  match l with
  | [] => ret tt
  | a :: l' => let* _ := f a in forEach f l'
  end.

(** Delivery of an inbound event to the handlers subscribed to it. *)
Definition transportReceive (env : Env) (event : string) (payload : DispatchMsg)
    : M World unit :=
  fun w =>
    forEach (fun h => callTransportHandler env h payload)
            (default [] (handlers w !! event)) w.

(** The session object emits [event] to its own listeners. *)
Definition sdkEmit (sdk : loc) (event : string) : M World unit :=
  fun w =>
    match heap w !! sdk with
    | Some (BananaCoreSdk _ _ _ ls) =>
      forEach callSdkListener (default [] (ls !! event)) w
    | _ => throw (TypeError "emit is not a function") w
    end.

(** Modelled from the spec: a method call on a dispatching proxy (the
    JobQueueDispatch, BananaCoreSdk and CoreSdkClientStub classes are not
    among the sources), which "turns a local method invocation into a
    Transport request carrying {functionName, args} and resolves/rejects the
    local call based on the remote result/error". The client stub handed to
    the application is the session object as the application sees it: a
    method called on it is the method of the session object it wraps. This
    is the forwarded method surface; the event members of a session object
    ([on], [emit]) are local and are [sdk_on] and [sdkEmit]. *)
Definition invokeMethod (env : Env) (target : loc) (method : string)
    (margs : list JsVal) : M World JsVal :=
  fun w =>
    match heap w !! target with
    | Some (JobQueueDispatch h) =>
      callDispatchFn env h {| fn := method; args := margs |} w
    | Some (BananaCoreSdk h _ _ _) =>
      callDispatchFn env h {| fn := method; args := margs |} w
    | Some (CoreSdkClientStub core) =>
      match heap w !! core with
      | Some (BananaCoreSdk h _ _ _) =>
        callDispatchFn env h {| fn := method; args := margs |} w
      | _ => throw (TypeError "not a dispatching proxy") w
      end
    | _ => throw (TypeError "not a dispatching proxy") w
    end.




(** [ServiceWorkerFrontend.initComponents]. The value it resolves to is the
    object literal [{ coreSdk: ... }], kept as a map from field name to
    reference. *)
Definition initComponents (env : Env) (options : BananaCoreSdkOptions)
    : M World (gmap string loc) :=
  let* _ := request env {| fn := "initComponents"; args := [optionsVal options] |} in
  let numWorkers := default (getNumWorkers env) (numWorkers options) in
  let* barretenberg := BarretenbergWasm_new env in
  let* workerPool := WorkerPool_new env barretenberg numWorkers in
  let* pedersen := new (PooledPedersen barretenberg workerPool) in
  let* pippenger := new (PooledPippenger workerPool) in
  let* fftFactory := new (PooledFftFactory workerPool) in
  let* jq := new (JobQueueDispatch jobQueueRequest) in
  let* _ := set_jobQueue jq in
  let* jobQueueWorker := new (JobQueueWorker jq pedersen pippenger fftFactory) in
  let* sdk := new (BananaCoreSdk coreSdkRequest jobQueueWorker workerPool ∅) in
  let* _ := set_coreSdk sdk in
  let* _ := sdk_on sdk (DESTROYED env) closeTransport in
  let* _ := transport_on "event_msg" relayEvent in
  let* stub := new (CoreSdkClientStub sdk) in
  ret {[ "coreSdk" := stub ]}.

(** The transport requests among the calls of a trace. *)
Definition requests (t : list Effect) : list DispatchMsg :=
  omap (fun e => match e with Request m => Some m | _ => None end) t.

(** The calls a complete run of [initComponents] makes, in order, when the
    next free location is [n]. *)
Definition initEvents (env : Env) (options : BananaCoreSdkOptions) (n : loc)
    : list Effect :=
  let k := default (getNumWorkers env) (numWorkers options) in
  [ Request {| fn := "initComponents"; args := [optionsVal options] |};
    WasmNew;
    WorkerPoolNew n k;
    New (2 + n)%nat (PooledPedersen n (1 + n)%nat);
    New (3 + n)%nat (PooledPippenger (1 + n)%nat);
    New (4 + n)%nat (PooledFftFactory (1 + n)%nat);
    New (5 + n)%nat (JobQueueDispatch jobQueueRequest);
    New (6 + n)%nat (JobQueueWorker (5 + n)%nat (2 + n)%nat (3 + n)%nat (4 + n)%nat);
    New (7 + n)%nat (BananaCoreSdk coreSdkRequest (6 + n)%nat (1 + n)%nat ∅);
    SdkOn (7 + n)%nat (DESTROYED env) closeTransport;
    TransportOn "event_msg" relayEvent;
    New (8 + n)%nat (CoreSdkClientStub (7 + n)%nat) ].

(** The frontend a complete run of [initComponents] leaves behind. *)
Definition afterInit (env : Env) (options : BananaCoreSdkOptions) (w : World)
    : World :=
  let n := next w in
  let k := default (getNumWorkers env) (numWorkers options) in
  {| jobQueue := Some (5 + n)%nat;
     coreSdk := Some (7 + n)%nat;
     heap :=
       <[(8 + n)%nat := CoreSdkClientStub (7 + n)%nat]>
       (<[(7 + n)%nat := BananaCoreSdk coreSdkRequest (6 + n)%nat (1 + n)%nat
                           (<[DESTROYED env := [closeTransport]]> ∅)]>
       (<[(7 + n)%nat := BananaCoreSdk coreSdkRequest (6 + n)%nat (1 + n)%nat ∅]>
       (<[(6 + n)%nat := JobQueueWorker (5 + n)%nat (2 + n)%nat (3 + n)%nat (4 + n)%nat]>
       (<[(5 + n)%nat := JobQueueDispatch jobQueueRequest]>
       (<[(4 + n)%nat := PooledFftFactory (1 + n)%nat]>
       (<[(3 + n)%nat := PooledPippenger (1 + n)%nat]>
       (<[(2 + n)%nat := PooledPedersen n (1 + n)%nat]>
       (<[(1 + n)%nat := WorkerPool n k]>
       (<[n := BarretenbergWasm]> (heap w))))))))));
     next := (9 + n)%nat;
     handlers :=
       <["event_msg" := default [] (handlers w !! "event_msg") ++ [relayEvent]]>
         (handlers w);
     closed := closed w;
     trace := trace w ++ initEvents env options n |}.

(** Every call the environment answers resolves. *)
Definition calm (env : Env) : Prop :=
  (forall w msg, exists v, transportRequest env w msg = Resolved v) /\
  (forall w, barretenbergNew env w = Resolved tt) /\
  (forall w n, workerPoolNew env w n = Resolved tt).

(** An environment in which every awaited call resolves. *)
Definition calmEnv : Env :=
  {| getNumWorkers := 8;
     DESTROYED := "SDKEVENT_DESTROYED";
     transportRequest := fun _ _ => Resolved JUndefined;
     barretenbergNew := fun _ => Resolved tt;
     workerPoolNew := fun _ _ => Resolved tt;
     inheritedMember := fun _ => Absent;
     memberCall := fun w _ _ => {| ended := Resolved tt; made := []; left := w |} |}.

(** A transport on which the initialization request is refused. *)
Definition deafEnv : Env :=
  {| getNumWorkers := 8;
     DESTROYED := "SDKEVENT_DESTROYED";
     transportRequest := fun _ _ => Rejected (Error "no backend");
     barretenbergNew := fun _ => Resolved tt;
     workerPoolNew := fun _ _ => Resolved tt;
     inheritedMember := fun _ => Absent;
     memberCall := fun w _ _ => {| ended := Resolved tt; made := []; left := w |} |}.

Definition noOptions : BananaCoreSdkOptions :=
  {| numWorkers := None; otherOptions := [] |}.

Definition fourWorkers : BananaCoreSdkOptions :=
  {| numWorkers := Some 4; otherOptions := [] |}.

End Frontend.

(** ** Inputs of validateDefiForm that differ in one respect *)

Module DefiFormInputs.
Import DefiForm.

(** The four inputs whose absence means the form is still loading. *)
Definition loaded (i : DefiFormValidationInput) : Prop :=
  is_Some (amountFactory i) /\ is_Some (feeAmount i) /\
  is_Some (balanceInTargetAsset i) /\ is_Some (balanceInFeePayingAsset i).

(** The same form with another number of base units typed in. *)
Definition withAmount (i : DefiFormValidationInput) (units : Z)
    : DefiFormValidationInput :=
  {| fields := fields i;
     amountFactory := amountFactory i;
     depositAsset := depositAsset i;
     targetDepositAmount :=
       match targetDepositAmount i with
       | Some a => Some {| id := id a; baseUnits := units |}
       | None => None
       end;
     balanceInTargetAsset := balanceInTargetAsset i;
     feeAmount := feeAmount i;
     balanceInFeePayingAsset := balanceInFeePayingAsset i;
     transactionLimit := transactionLimit i |}.

(** The same form seen with other balances and another limit. *)
Definition withFunds (i : DefiFormValidationInput) (balTarget balFee limit : Z)
    : DefiFormValidationInput :=
  {| fields := fields i;
     amountFactory := amountFactory i;
     depositAsset := depositAsset i;
     targetDepositAmount := targetDepositAmount i;
     balanceInTargetAsset := Some balTarget;
     feeAmount := feeAmount i;
     balanceInFeePayingAsset := Some balFee;
     transactionLimit := Some limit |}.

End DefiFormInputs.

(** ** What a run of deployContracts is made of *)

Module DeployRuns.
Import Deploy.

(** The signer [getSigner] builds for a host and an optional private key. *)
Definition signerOf (h : string) (privateKey : option string) : Signer :=
  NonceManager
    match privateKey with
    | Some pk => if truthy privateKey then Wallet pk h else ProviderSigner h 0
    | None => ProviderSigner h 0
    end.

(** The Wallet constructor does not refuse the key, where it is used. *)
Definition walletAccepted (env : Env) (privateKey : option string) : Prop :=
  forall pk, privateKey = Some pk -> pk <> "" -> newWallet env pk = None.

(** What [getSigner] does on the way. *)
Definition signerEvents (h : string) (privateKey : option string) : list Effect :=
  [ ConsoleLog "Json rpc provider: " (JStr h);
    NewJsonRpcProvider h;
    match privateKey with
    | Some pk => if truthy privateKey then NewWallet pk else ProviderGetSigner 0
    | None => ProviderGetSigner 0
    end ].

(** [vk ? vk : 'MockVerificationKey']. *)
Definition keyOf (vk : option string) : string :=
  if truthy vk then default "" vk else "MockVerificationKey".

(** The environment variables made from the deployed contracts. *)
Definition envVarsOf (c : Contracts) : EnvVars :=
  {| ROLLUP_CONTRACT_ADDRESS := rollup c;
     PERMIT_HELPER_CONTRACT_ADDRESS := permitHelper c;
     FEE_DISTRIBUTOR_ADDRESS := feeDistributor c;
     PRICE_FEED_CONTRACT_ADDRESSES := String.concat "," (priceFeeds c);
     FAUCET_CONTRACT_ADDRESS := faucet c;
     BRIDGE_DATA_PROVIDER_CONTRACT_ADDRESS := bridgeDataProvider c |}.

(** The deploy scripts run in a trace, in order. *)
Definition scripts (t : Trace) : list DeployCall :=
  omap (fun e => match e with RunDeploy c => Some c | _ => None end) t.

(** The console lines and lookups between the signer and the tree data. *)
Definition chainEvents (signerAddress : string) (chainId : Z)
    (vk : option string) (faucetOperator rollupProvider : option EthAddress)
    : list Effect :=
  [ GetAddress;
    ConsoleLog "Signer: " (JStr signerAddress);
    GetChainId;
    ConsoleLog "Chain id: " (JNum chainId);
    ConsoleLog "Faucet operator: " (optAddr faucetOperator);
    ConsoleLog "Rollup provider: " (optAddr rollupProvider);
    ConsoleLog "Verification key: " (JStr (keyOf vk));
    GetInitData chainId ].

Definition treeEvents (tid : TreeInitData) : list Effect :=
  [ ConsoleLog "Initial data size: " (JNum (dataTreeSize tid));
    ConsoleLog "Initial data root: " (JStr (dataRoot (roots tid)));
    ConsoleLog "Initial null root: " (JStr (nullRoot (roots tid)));
    ConsoleLog "Initial root root: " (JStr (rootsRoot (roots tid))) ].

(** An awaited call that did not resolve ends the caller the same way. *)
Definition stop {A B} (o : Outcome A) : Outcome B :=
  match o with
  | Rejected e => Rejected e
  | _ => Pending
  end.

End DeployRuns.

(** ** Further environments for the frontend *)

Module FrontendEnvs.
Import Frontend.

(** A wasm loader that fails after the backend has answered. *)
Definition noWasmEnv : Env :=
  {| getNumWorkers := getNumWorkers calmEnv;
     DESTROYED := DESTROYED calmEnv;
     transportRequest := transportRequest calmEnv;
     barretenbergNew := fun _ => Rejected (Error "wasm not found");
     workerPoolNew := workerPoolNew calmEnv;
     inheritedMember := inheritedMember calmEnv;
     memberCall := memberCall calmEnv |}.

End FrontendEnvs.

(** ** blockchain: rollup_processor/fixtures/setup_defi_bridges.ts *)

Module Bridges.

Definition EthAddress : Type := Deploy.EthAddress.

(** [EthAddress.ZERO], which stands for ETH among the assets. *)
Definition ZERO : EthAddress := "0x0000000000000000000000000000000000000000".

Record MockBridgeParams : Type := {
  inputAssetIdA : option Z;
  inputAssetIdB : option Z;
  outputAssetIdA : option Z;
  outputAssetIdB : option Z;
  canConvert : option bool;
  outputValueA : option Z;
  outputValueB : option Z;
  returnValueA : option Z;
  returnValueB : option Z;
  returnInputValue : option Z;
  isAsync : option bool;
  maxTxs : option Z;
  auxData : option Z;
  bridgeGasLimit : option Z
}.

(** [{}]. *)
Definition noParams : MockBridgeParams :=
  {| inputAssetIdA := None; inputAssetIdB := None; outputAssetIdA := None;
     outputAssetIdB := None; canConvert := None; outputValueA := None;
     outputValueB := None; returnValueA := None; returnValueB := None;
     returnInputValue := None; isAsync := None; maxTxs := None;
     auxData := None; bridgeGasLimit := None |}.

(** The arguments of [new BridgeCallData(...)], in its order. *)
Record BridgeCallData : Type := {
  bridgeAddressId : Z;
  callInputAssetIdA : Z;
  callOutputAssetIdA : Z;
  callInputAssetIdB : option Z;
  callOutputAssetIdB : option Z;
  callAuxData : Z
}.

(** The calls that reach the chain, in order. *)
Inductive Effect : Type :=
| DeployBridge (rollupProcessor : EthAddress) (canConvert : bool)
    (outputValueA outputValueB returnValueA returnValueB returnInputValue : Z)
    (isAsync : bool)
| Deployed
| SetSupportedBridge (bridge : EthAddress) (gasLimit : Z)
| GetSupportedBridges
| SendTransaction (value : string) (to : EthAddress)
| Erc20Mint (asset : EthAddress) (to : EthAddress) (amount : Z)
| GetSupportedBridge (bridgeAddressId : Z).

Definition Trace : Type := list Effect.

(** The chain and the classes the fixture uses. Each awaited call is
    answered from the calls made so far, the one being answered included. *)
Record Env : Type := {
  rollupProcessorAddress : EthAddress;
  deployBridge : Trace -> Outcome EthAddress;        (* the address of the deployed bridge *)
  bridgeDeployed : Trace -> Outcome unit;
  setSupportedBridge : Trace -> Outcome unit;
  getSupportedBridges : Trace -> Outcome (list (EthAddress * Z));
  newBridgeCallData : BridgeCallData -> option JsError;  (* what the constructor refuses *)
  sendTransaction : Trace -> Outcome unit;
  erc20Mint : Trace -> Outcome unit;
  getSupportedBridge : Trace -> Outcome EthAddress
}.

Definition emit (e : Effect) : M Trace unit := modify (fun t => t ++ [e]).

(** [amount.toString(16)] on a bigint. *)
Definition toString16 (amount : Z) : string :=
  match amount with
  | Z0 => "0"
  | Zpos p => HexString.Raw.of_pos p ""
  | Zneg p => "-" ++ HexString.Raw.of_pos p ""
  end.

(** The inner [mint]: nothing for a zero amount, a plain transaction for
    ETH, the token's [mint] otherwise. *)
Definition mint (env : Env) (bridge : EthAddress) (assetAddress : EthAddress)
    (amount : Z) : M Trace unit :=
  if amount =? 0 then ret tt
  else if String.eqb assetAddress ZERO then
    let* _ := emit (SendTransaction ("0x" ++ toString16 amount) bridge) in
    let* _ := await (sendTransaction env) in
    ret tt
  else
    let* _ := emit (Erc20Mint assetAddress bridge amount) in
    let* _ := await (erc20Mint env) in
    ret tt.

(** [assetAddresses[id]]: [undefined] for an absent id and outside the
    array. *)
Definition assetAt (assetAddresses : list EthAddress) (id : option Z)
    : option EthAddress :=
  match id with
  | Some i => if i <? 0 then None else assetAddresses !! Z.to_nat i
  | None => None
  end.

(** [if (assetAddresses[id]) { await mint(assetAddresses[id], amount); }]. *)
Definition fund (env : Env) (bridge : EthAddress) (assetAddresses : list EthAddress)
    (id : option Z) (amount : Z) : M Trace unit :=
  match assetAt assetAddresses id with
  | Some a => mint env bridge a amount
  | None => ret tt
  end.

Definition deployMockBridge (env : Env) (assetAddresses : list EthAddress)
    (params : MockBridgeParams) : M Trace BridgeCallData :=
  let inputAssetIdA := default 1 (inputAssetIdA params) in
  let inputAssetIdB := inputAssetIdB params in
  let outputAssetIdA := default 2 (outputAssetIdA params) in
  let outputAssetIdB := outputAssetIdB params in
  let canConvert := default true (canConvert params) in
  let outputValueA := default 10 (outputValueA params) in
  let outputValueB := default 0 (outputValueB params) in
  let returnValueA := default outputValueA (returnValueA params) in
  let returnValueB := default outputValueB (returnValueB params) in
  let returnInputValue := default 0 (returnInputValue params) in
  let isAsync := default false (isAsync params) in
  let maxTxs := default 100 (maxTxs params) in
  let auxData := default 0 (auxData params) in
  let bridgeGasLimit := default 300000 (bridgeGasLimit params) in
  let* _ := emit (DeployBridge (rollupProcessorAddress env) canConvert
                    outputValueA outputValueB returnValueA returnValueB
                    returnInputValue isAsync) in
  let* bridge := await (deployBridge env) in
  let* _ := emit Deployed in
  let* _ := await (bridgeDeployed env) in
  let* _ := emit (SetSupportedBridge bridge bridgeGasLimit) in
  let* _ := await (setSupportedBridge env) in
  let* _ := emit GetSupportedBridges in
  let* bridges := await (getSupportedBridges env) in
  let bridgeAddressId := Z.of_nat (length bridges) in
  let bridgeCallData :=
    {| bridgeAddressId := bridgeAddressId;
       callInputAssetIdA := inputAssetIdA;
       callOutputAssetIdA := outputAssetIdA;
       callInputAssetIdB := inputAssetIdB;
       callOutputAssetIdB := outputAssetIdB;
       callAuxData := auxData |} in
  let* _ := match newBridgeCallData env bridgeCallData with
            | Some e => throw e
            | None => ret tt
            end in
  let* _ := fund env bridge assetAddresses (Some inputAssetIdA)
              (returnInputValue * maxTxs) in
  let* _ := fund env bridge assetAddresses (Some outputAssetIdA)
              (returnValueA * maxTxs) in
  let* _ := fund env bridge assetAddresses inputAssetIdB
              (returnInputValue * maxTxs) in
  let* _ := fund env bridge assetAddresses outputAssetIdB
              (returnValueB * maxTxs) in
  ret bridgeCallData.

(** [{ ...params, isAsync: true }]. *)
Definition asAsync (params : MockBridgeParams) : MockBridgeParams :=
  {| inputAssetIdA := inputAssetIdA params; inputAssetIdB := inputAssetIdB params;
     outputAssetIdA := outputAssetIdA params; outputAssetIdB := outputAssetIdB params;
     canConvert := canConvert params; outputValueA := outputValueA params;
     outputValueB := outputValueB params; returnValueA := returnValueA params;
     returnValueB := returnValueB params; returnInputValue := returnInputValue params;
     isAsync := Some true; maxTxs := maxTxs params;
     auxData := auxData params; bridgeGasLimit := bridgeGasLimit params |}.

(** What [mockAsyncBridge] returns: the call data and a [DefiBridge] on the
    address the rollup processor reports. *)
Record AsyncBridge : Type := {
  bridgeCallData : BridgeCallData;
  bridge : EthAddress
}.

Definition mockAsyncBridge (env : Env) (assetAddresses : list EthAddress)
    (params : MockBridgeParams) : M Trace AsyncBridge :=
  let* bridgeCallData := deployMockBridge env assetAddresses (asAsync params) in
  let* _ := emit (GetSupportedBridge (bridgeAddressId bridgeCallData)) in
  let* bridgeAddress := await (getSupportedBridge env) in
  ret {| bridgeCallData := bridgeCallData; bridge := bridgeAddress |}.

(** *** The funding a call asks for *)

(** What one [if (assetAddresses[id]) await mint(...)] sends, if anything. *)
Definition planned (assetAddresses : list EthAddress) (id : option Z) (amount : Z)
    : list (EthAddress * Z) :=
  match assetAt assetAddresses id with
  | Some a => if amount =? 0 then [] else [(a, amount)]
  | None => []
  end.

(** The four of them, with the defaults of the parameters filled in. *)
Definition fundingPlan (assetAddresses : list EthAddress) (params : MockBridgeParams)
    : list (EthAddress * Z) :=
  let maxTxs := default 100 (maxTxs params) in
  let returnInputValue := default 0 (returnInputValue params) in
  let returnValueA := default (default 10 (outputValueA params)) (returnValueA params) in
  let returnValueB := default (default 0 (outputValueB params)) (returnValueB params) in
  planned assetAddresses (Some (default 1 (inputAssetIdA params)))
    (returnInputValue * maxTxs)
  ++ planned assetAddresses (Some (default 2 (outputAssetIdA params)))
       (returnValueA * maxTxs)
  ++ planned assetAddresses (inputAssetIdB params) (returnInputValue * maxTxs)
  ++ planned assetAddresses (outputAssetIdB params) (returnValueB * maxTxs).

(** The call that funds the bridge with an amount of an asset. *)
Definition fundingEffect (bridge : EthAddress) (x : EthAddress * Z) : Effect :=
  if String.eqb (fst x) ZERO
  then SendTransaction ("0x" ++ toString16 (snd x)) bridge
  else Erc20Mint (fst x) bridge (snd x).

(** The call data [deployMockBridge] builds once it knows how many bridges
    the rollup processor supports. *)
Definition callDataOf (params : MockBridgeParams) (bridges : list (EthAddress * Z))
    : BridgeCallData :=
  {| bridgeAddressId := Z.of_nat (length bridges);
     callInputAssetIdA := default 1 (inputAssetIdA params);
     callOutputAssetIdA := default 2 (outputAssetIdA params);
     callInputAssetIdB := inputAssetIdB params;
     callOutputAssetIdB := outputAssetIdB params;
     callAuxData := default 0 (auxData params) |}.

(** The calls that move funds. *)
Definition isFunding (e : Effect) : bool :=
  match e with
  | SendTransaction _ _ | Erc20Mint _ _ _ => true
  | _ => false
  end.

(** The calls up to the construction of the call data. *)
Definition setupEvents (env : Env) (params : MockBridgeParams) (bridge : EthAddress)
    : list Effect :=
  [ DeployBridge (rollupProcessorAddress env)
      (default true (canConvert params))
      (default 10 (outputValueA params))
      (default 0 (outputValueB params))
      (default (default 10 (outputValueA params)) (returnValueA params))
      (default (default 0 (outputValueB params)) (returnValueB params))
      (default 0 (returnInputValue params))
      (default false (isAsync params));
    Deployed;
    SetSupportedBridge bridge (default 300000 (bridgeGasLimit params));
    GetSupportedBridges ].

(** A chain on which everything succeeds; the bridge lands at [0xb01d] and
    is the second bridge the rollup processor knows. *)
Definition sampleEnv : Env :=
  {| rollupProcessorAddress := "0x5011";
     deployBridge := fun _ => Resolved "0xb01d";
     bridgeDeployed := fun _ => Resolved tt;
     setSupportedBridge := fun _ => Resolved tt;
     getSupportedBridges := fun _ => Resolved [("0xaaaa", 300000); ("0xb01d", 300000)];
     newBridgeCallData := fun _ => None;
     sendTransaction := fun _ => Resolved tt;
     erc20Mint := fun _ => Resolved tt;
     getSupportedBridge := fun _ => Resolved "0xb01d" |}.

(** ETH, then two tokens. *)
Definition sampleAssets : list EthAddress := [ZERO; "0xda10"; "0x0b7c"].

End Bridges.

(** * Properties *)

(** ** validateDefiForm *)

Section DefiFormFacts.
Import DefiForm.

(** On a fully populated input the function reaches its last [return]; the
    flags are the comparisons of the source. *)
Lemma validateDefiForm_populated (i : DefiFormValidationInput) :
  fullyPopulated i ->
  exists target fee balTarget balFee limit,
    targetDepositAmount i = Some target /\ feeAmount i = Some fee /\
    balanceInTargetAsset i = Some balTarget /\
    balanceInFeePayingAsset i = Some balFee /\
    transactionLimit i = Some limit /\
    let feeInTarget := if id target =? id fee then baseUnits fee else 0 in
    let r := validateDefiForm i in
    insufficientTargetAssetBalance r
      = Some (balTarget <? baseUnits target + feeInTarget) /\
    insufficientFeePayingAssetBalance r = Some (balFee <? baseUnits fee) /\
    beyondTransactionLimit r = Some (baseUnits target >? limit) /\
    noAmount r = Some (baseUnits target <=? 0) /\
    isValid r
      = Some (negb (balTarget <? baseUnits target + feeInTarget)
              && negb (balFee <? baseUnits fee)
              && negb (baseUnits target >? limit)
              && negb (baseUnits target <=? 0)) /\
    validPayload r
      = (if negb (balTarget <? baseUnits target + feeInTarget)
            && negb (balFee <? baseUnits fee)
            && negb (baseUnits target >? limit)
            && negb (baseUnits target <=? 0)
         then Some {| payloadTargetDepositAmount := target; payloadFeeAmount := fee |}
         else None).
Proof.
  intros ([af Haf] & [fee Hfee] & [bt Hbt] & [bf Hbf] & [lim Hlim] & [tg Htg]).
  exists tg, fee, bt, bf, lim.
  unfold validateDefiForm.
  rewrite Haf, Hfee, Hbt, Hbf, Htg, Hlim. cbn.
  repeat split; reflexivity.
Qed.

(** C9: for every fully populated input, the four blocking flags are the
    comparisons of the source (target balance below amount plus fee when
    the target asset pays it, fee-paying balance below the fee, amount over
    the limit, amount not positive); [isValid] is true exactly when none of
    them holds, and [validPayload] is defined exactly when [isValid] is
    true, in which case it holds the input's [targetDepositAmount] and
    [feeAmount] and nothing else. *)
Theorem validateDefiForm_valid_iff (i : DefiFormValidationInput) :
  fullyPopulated i ->
  let r := validateDefiForm i in
  (exists target fee balTarget balFee limit,
     targetDepositAmount i = Some target /\ feeAmount i = Some fee /\
     balanceInTargetAsset i = Some balTarget /\
     balanceInFeePayingAsset i = Some balFee /\
     transactionLimit i = Some limit /\
     let feeInTarget := if id target =? id fee then baseUnits fee else 0 in
     (insufficientTargetAssetBalance r = Some true <->
        balTarget < baseUnits target + feeInTarget) /\
     (insufficientFeePayingAssetBalance r = Some true <->
        balFee < baseUnits fee) /\
     (beyondTransactionLimit r = Some true <-> baseUnits target > limit) /\
     (noAmount r = Some true <-> baseUnits target <= 0) /\
     (isValid r = Some true <->
        baseUnits target + feeInTarget <= balTarget /\
        baseUnits fee <= balFee /\
        baseUnits target <= limit /\ 0 < baseUnits target)) /\
  (isValid r = Some true <->
     insufficientTargetAssetBalance r <> Some true /\
     insufficientFeePayingAssetBalance r <> Some true /\
     beyondTransactionLimit r <> Some true /\
     noAmount r <> Some true) /\
  (is_Some (validPayload r) <-> isValid r = Some true) /\
  (isValid r = Some true ->
     exists target fee,
       targetDepositAmount i = Some target /\ feeAmount i = Some fee /\
       validPayload r
         = Some {| payloadTargetDepositAmount := target; payloadFeeAmount := fee |}) /\
  (isValid r = Some true \/ isValid r = Some false).
Proof.
  intros Hfull r.
  destruct (validateDefiForm_populated i Hfull)
    as (tg & fee & bt & bf & lim & Htg & Hfee & Hbt & Hbf & Hlim & H).
  cbv zeta in H. fold r in H.
  destruct H as (Ha & Hb & Hc & Hd & Hv & Hp).
  split.
  { exists tg, fee, bt, bf, lim.
    split; [exact Htg |]. split; [exact Hfee |]. split; [exact Hbt |].
    split; [exact Hbf |]. split; [exact Hlim |].
    cbv zeta. rewrite Ha, Hb, Hc, Hd, Hv.
    set (f := if id tg =? id fee then baseUnits fee else 0).
    split; [| split; [| split; [| split]]].
    - split; [intros [= H]; apply Z.ltb_lt; exact H
             | intros H; f_equal; apply Z.ltb_lt; exact H].
    - split; [intros [= H]; apply Z.ltb_lt; exact H
             | intros H; f_equal; apply Z.ltb_lt; exact H].
    - split; [intros [= H]; apply Z.gtb_lt in H; lia
             | intros H; f_equal; apply Z.gtb_lt; lia].
    - split; [intros [= H]; apply Z.leb_le; exact H
             | intros H; f_equal; apply Z.leb_le; exact H].
    - split.
      + intros [= H].
        destruct (Z.ltb_spec bt (baseUnits tg + f)); [discriminate |].
        destruct (Z.ltb_spec bf (baseUnits fee)); [discriminate |].
        destruct (Z.gtb_spec (baseUnits tg) lim); [discriminate |].
        destruct (Z.leb_spec (baseUnits tg) 0); [discriminate |]. lia.
      + intros (H1 & H2 & H3 & H4). f_equal.
        destruct (Z.ltb_spec bt (baseUnits tg + f)); [lia |].
        destruct (Z.ltb_spec bf (baseUnits fee)); [lia |].
        destruct (Z.gtb_spec (baseUnits tg) lim); [lia |].
        destruct (Z.leb_spec (baseUnits tg) 0); [lia |]. reflexivity. }
  rewrite Ha, Hb, Hc, Hd, Hv, Hp.
  set (a := bt <? _). set (b := bf <? _). set (c := _ >? lim). set (d := _ <=? 0).
  repeat split.
  - destruct a; [discriminate | congruence].
  - destruct a, b; cbn in *; congruence.
  - destruct a, b, c; cbn in *; congruence.
  - destruct a, b, c, d; cbn in *; congruence.
  - intros (Ha' & Hb' & Hc' & Hd').
    destruct a, b, c, d; cbn; congruence.
  - intros [p Hp']. destruct a, b, c, d; cbn in *; congruence.
  - intros Hv'. destruct a, b, c, d; cbn in *; try discriminate. eexists; reflexivity.
  - intros Hv'. exists tg, fee. repeat split; try assumption.
    destruct a, b, c, d; cbn in *; try discriminate. reflexivity.
  - destruct a, b, c, d; cbn; auto.
Qed.

Lemma validateDefiForm_valid_iff_witness :
  fullyPopulated sampleInput /\
  isValid (validateDefiForm sampleInput) = Some true /\
  is_Some (validPayload (validateDefiForm sampleInput)).
Proof.
  assert (Hfull : fullyPopulated sampleInput)
    by (repeat split; eexists; reflexivity).
  split; [exact Hfull |].
  destruct (validateDefiForm_valid_iff sampleInput Hfull) as (_ & _ & Hiff & _).
  split; [reflexivity | apply Hiff; reflexivity].
Defined.

End DefiFormFacts.

(** ** getSigner, deploy, deployContracts *)

Section DeployFacts.
Import Deploy.

(** C8: [deploy] picks the script by chain id alone: 1 gives the mainnet
    deployment, 0xa57ec and 0xdef the mainnet-fork deployment, every other
    chain id the dev deployment; the other arguments are handed on
    unchanged and never change the pick. *)
Theorem deploy_by_chain_id (host : string) (chainId : Z) (signer : Signer)
    (tid : TreeInitData) (vk : string) (fo rp : option EthAddress) :
  (chainId = 1 ->
     deploy host chainId signer tid vk fo rp = deployMainnet signer tid vk fo rp) /\
  (chainId = 0xa57ec \/ chainId = 0xdef ->
     deploy host chainId signer tid vk fo rp
       = deployMainnetFork host signer tid vk fo rp) /\
  (chainId <> 1 -> chainId <> 0xa57ec -> chainId <> 0xdef ->
     deploy host chainId signer tid vk fo rp = deployDev signer tid vk fo rp) /\
  (forall host' signer' tid' vk' fo' rp',
     networkOf (deploy host' chainId signer' tid' vk' fo' rp')
       = networkOf (deploy host chainId signer tid vk fo rp)).
Proof.
  unfold deploy. repeat split.
  - intros ->. reflexivity.
  - intros [-> | ->]; reflexivity.
  - intros H1 H2 H3.
    destruct (Z.eqb_spec chainId 1); [contradiction |].
    destruct (Z.eqb_spec chainId 0xa57ec); [contradiction |].
    destruct (Z.eqb_spec chainId 0xdef); [contradiction |]. reflexivity.
  - intros. destruct (chainId =? 1); [reflexivity |].
    destruct ((chainId =? 0xa57ec) || (chainId =? 0xdef)); reflexivity.
Qed.

Lemma deploy_by_chain_id_witness :
  let s := NonceManager (ProviderSigner "http://localhost:8545" 0) in
  deploy "http://localhost:8545" 1 s sampleTree "vk" None None
    = deployMainnet s sampleTree "vk" None None /\
  deploy "http://localhost:8545" 0xdef s sampleTree "vk" None None
    = deployMainnetFork "http://localhost:8545" s sampleTree "vk" None None /\
  deploy "http://localhost:8545" 1337 s sampleTree "vk" None None
    = deployDev s sampleTree "vk" None None.
Proof.
  intros s. split; [| split].
  - apply (deploy_by_chain_id "http://localhost:8545" 1 s sampleTree "vk" None None).
    reflexivity.
  - apply (deploy_by_chain_id "http://localhost:8545" 0xdef s sampleTree "vk" None None).
    right; reflexivity.
  - apply (deploy_by_chain_id "http://localhost:8545" 1337 s sampleTree "vk" None None);
      lia.
Defined.

(** C10: with the host absent or empty, [deployContracts] fails with the
    error 'ETHEREUM_HOST not set.' raised by [getSigner], and has done
    nothing by then: no provider, no request, not even a console line. *)
Theorem deployContracts_host_not_set (env : Env) (host vk privateKey : option string)
    (fo rp : option EthAddress) (t : Trace) :
  host = None \/ host = Some "" ->
  getSigner env host privateKey t
    = (Rejected (Error "ETHEREUM_HOST not set."), t) /\
  deployContracts env host vk privateKey fo rp t
    = (Rejected (Error "ETHEREUM_HOST not set."), t).
Proof.
  intros [-> | ->]; split; reflexivity.
Qed.

Lemma deployContracts_host_not_set_witness :
  deployContracts (sampleEnv 1) (Some "") None None None None []
    = (Rejected (Error "ETHEREUM_HOST not set."), []).
Proof.
  apply (deployContracts_host_not_set (sampleEnv 1) (Some "") None None None None []).
  right; reflexivity.
Defined.

End DeployFacts.

(** ** ServiceWorkerFrontend *)

Section FrontendFacts.
Import Frontend.


(** The run is cut short only by the three awaited calls; otherwise it ends
    in [afterInit]. The trace is always the old one followed by an initial
    segment of [initEvents] that starts with the request. *)
Lemma initComponents_run (env : Env) (o : BananaCoreSdkOptions) (w w' : World)
    (r : Outcome (gmap string loc)) :
  initComponents env o w = (r, w') ->
  let initMsg := {| fn := "initComponents"; args := [optionsVal o] |} in
  (exists k, (1 <= k)%nat /\
     trace w' = trace w ++ take k (initEvents env o (next w))) /\
  (forall e, transportRequest env w initMsg = Rejected e ->
     r = Rejected e /\ w' = snd (log (Request initMsg) w)) /\
  (transportRequest env w initMsg = Pending ->
     r = Pending /\ w' = snd (log (Request initMsg) w)) /\
  (forall res, r = Resolved res ->
     res = {[ "coreSdk" := (8 + next w)%nat ]} /\ w' = afterInit env o w) /\
  (calm env -> exists res, r = Resolved res).
Proof.
  unfold initComponents, BarretenbergWasm_new, WorkerPool_new, request,
    new, set_jobQueue, set_coreSdk, sdk_on, transport_on, store.
  cbv [bind await log alloc modify ret throw fst snd
       jobQueue coreSdk heap next handlers closed trace].
  destruct (transportRequest env w _) as [v | e | ] eqn:Hreq.
  2,3: intros [= <- <-]; cbn [trace log modify snd];
       (split; [exists 1%nat; split; [lia | reflexivity] |]);
       repeat split; try congruence;
       intros (Hc & _ & _);
       destruct (Hc w {| fn := "initComponents"; args := [optionsVal o] |}) as [v Hv];
       congruence.
  match goal with |- context [barretenbergNew env ?x] =>
    destruct (barretenbergNew env x) as [[] | e | ] eqn:Hwasm end.
  2,3: intros [= <- <-]; cbn [trace];
       (split; [exists 2%nat; split; [lia | rewrite <- app_assoc; reflexivity] |]);
       repeat split; try congruence;
       intros (_ & Hc & _); rewrite Hc in Hwasm; discriminate.
  match goal with |- context [workerPoolNew env ?x ?n] =>
    destruct (workerPoolNew env x n) as [[] | e | ] eqn:Hpool end.
  2,3: intros [= <- <-]; cbn [trace];
       (split; [exists 3%nat; split; [lia | rewrite <- !app_assoc; reflexivity] |]);
       repeat split; try congruence;
       intros (_ & _ & Hc); rewrite Hc in Hpool; discriminate.
  rewrite lookup_insert_eq.
  cbv [bind await log alloc modify ret throw fst snd
       jobQueue coreSdk heap next handlers closed trace].
  rewrite lookup_empty. cbn [default from_option id app].
  intros [= <- <-]. cbn [trace].
  split; [exists 12%nat; split; [lia | rewrite <- !app_assoc; reflexivity] |].
  split; [congruence |]. split; [congruence |].
  split; [| intros _; eexists; reflexivity].
  intros res [= <-]. split; [reflexivity |].
  unfold afterInit, initEvents. rewrite <- !app_assoc. reflexivity.
Qed.

Lemma initComponents_calm (env : Env) (o : BananaCoreSdkOptions) (w : World) :
  calm env ->
  initComponents env o w
    = (Resolved {[ "coreSdk" := (8 + next w)%nat ]}, afterInit env o w).
Proof.
  intros Hcalm.
  destruct (initComponents env o w) as [r w'] eqn:Hrun.
  pose proof (initComponents_run env o w w' r Hrun) as (_ & _ & _ & Hres & Hdone).
  destruct (Hdone Hcalm) as [res ->].
  destruct (Hres res eq_refl) as [-> ->]. reflexivity.
Qed.

(** Reading the heap a complete run leaves. *)
Ltac heap_at :=
  unfold afterInit; cbn [heap];
  repeat (rewrite lookup_insert_ne by lia);
  apply lookup_insert_eq.

Lemma afterInit_pool (env : Env) (o : BananaCoreSdkOptions) (w : World) :
  heap (afterInit env o w) !! (1 + next w)%nat
    = Some (WorkerPool (next w) (default (getNumWorkers env) (numWorkers o))).
Proof. heap_at. Qed.

Lemma afterInit_jobQueue (env : Env) (o : BananaCoreSdkOptions) (w : World) :
  heap (afterInit env o w) !! (5 + next w)%nat
    = Some (JobQueueDispatch jobQueueRequest).
Proof. heap_at. Qed.

Lemma afterInit_coreSdk (env : Env) (o : BananaCoreSdkOptions) (w : World) :
  heap (afterInit env o w) !! (7 + next w)%nat
    = Some (BananaCoreSdk coreSdkRequest (6 + next w)%nat (1 + next w)%nat
              (<[DESTROYED env := [closeTransport]]> ∅)).
Proof. heap_at. Qed.


(** One call of a dispatch arrow: a debug line, one request, and the
    request's own outcome handed back. *)
Lemma callDispatchFn_run (env : Env) (d : DispatchFn) (msg : DispatchMsg) (w : World) :
  let label := match d with
               | jobQueueRequest => "job queue dispatch request: "
               | coreSdkRequest => "core sdk dispatch request: "
               end in
  let target := match d with
                | jobQueueRequest => "jobQueueDispatch"
                | coreSdkRequest => "coreSdkDispatch"
                end in
  let req := {| fn := target; args := [msgVal msg] |} in
  let w1 := snd (log (Debug label msg) w) in
  callDispatchFn env d msg w
    = (transportRequest env w1 req, snd (log (Request req) w1)).
Proof. destruct d; reflexivity. Qed.

Lemma requests_app (t1 t2 : list Effect) :
  requests (t1 ++ t2) = requests t1 ++ requests t2.
Proof. unfold requests. apply omap_app. Qed.

(** C1: the Worker Pool is asked for with [options.numWorkers] slots when
    the field is present and with [getNumWorkers()] when it is absent: no
    other size is ever requested, and when the run completes the pool handed
    to the session object reports that size. A run completes whenever the
    awaited calls resolve. *)
Theorem initComponents_pool_size (env : Env) (o : BananaCoreSdkOptions)
    (w w' : World) (r : Outcome (gmap string loc)) :
  initComponents env o w = (r, w') ->
  let k := match numWorkers o with
           | Some n => n
           | None => getNumWorkers env
           end in
  (exists evs, trace w' = trace w ++ evs /\
     forall b n, WorkerPoolNew b n ∈ evs -> n = k) /\
  (forall res, r = Resolved res ->
     exists sdk d jw pool ls,
       coreSdk w' = Some sdk /\
       heap w' !! sdk = Some (BananaCoreSdk d jw pool ls) /\
       size w' pool = Some k) /\
  (calm env -> exists res, r = Resolved res).
Proof.
  intros Hrun k.
  assert (Hk : k = default (getNumWorkers env) (numWorkers o))
    by (unfold k; destruct (numWorkers o); reflexivity).
  pose proof (initComponents_run env o w w' r Hrun) as ([n [_ Htr]] & _ & _ & Hres & _).
  split; [| split].
  - eexists; split; [exact Htr |].
    intros b m Hin. apply subseteq_take in Hin.
    unfold initEvents in Hin. rewrite <- Hk in Hin.
    repeat (apply elem_of_cons in Hin as [Heq | Hin]; [try discriminate |]).
    + congruence.
    + apply elem_of_nil in Hin. contradiction.
  - intros res ->. destruct (Hres res eq_refl) as [_ ->].
    exists (7 + next w)%nat, coreSdkRequest, (6 + next w)%nat, (1 + next w)%nat,
      (<[DESTROYED env := [closeTransport]]> ∅).
    split; [reflexivity |]. split; [apply afterInit_coreSdk |].
    unfold size. rewrite afterInit_pool, Hk. reflexivity.
  - intros Hcalm. rewrite (initComponents_calm env o w Hcalm) in Hrun.
    injection Hrun as <- _. eexists; reflexivity.
Qed.

Lemma initComponents_pool_size_witness :
  (exists pool,
     size (snd (initComponents calmEnv fourWorkers newFrontend)) pool = Some 4) /\
  (exists pool,
     size (snd (initComponents calmEnv noOptions newFrontend)) pool
       = Some (getNumWorkers calmEnv)).
Proof.
  assert (Hfour : initComponents calmEnv fourWorkers newFrontend
                  = (Resolved {[ "coreSdk" := 8%nat ]},
                     afterInit calmEnv fourWorkers newFrontend))
    by (vm_compute; reflexivity).
  assert (Hnone : initComponents calmEnv noOptions newFrontend
                  = (Resolved {[ "coreSdk" := 8%nat ]},
                     afterInit calmEnv noOptions newFrontend))
    by (vm_compute; reflexivity).
  split.
  - destruct (initComponents_pool_size calmEnv fourWorkers newFrontend _ _ Hfour)
      as (_ & Hsize & _).
    destruct (Hsize _ eq_refl) as (_ & _ & _ & pool & _ & _ & _ & H).
    exists pool. rewrite Hfour. exact H.
  - destruct (initComponents_pool_size calmEnv noOptions newFrontend _ _ Hnone)
      as (_ & Hsize & _).
    destruct (Hsize _ eq_refl) as (_ & _ & _ & pool & _ & _ & _ & H).
    exists pool. rewrite Hnone. exact H.
Defined.

(** Once the request has resolved, the wasm module is asked for next. *)
Lemma initComponents_after_response (env : Env) (o : BananaCoreSdkOptions)
    (w w' : World) (r : Outcome (gmap string loc)) (v : JsVal) :
  initComponents env o w = (r, w') ->
  transportRequest env w {| fn := "initComponents"; args := [optionsVal o] |}
    = Resolved v ->
  exists k,
    trace w' = trace w ++ Request {| fn := "initComponents"; args := [optionsVal o] |}
                 :: WasmNew :: take k (drop 2 (initEvents env o (next w))).
Proof.
  intros Hrun Hreq. revert Hrun.
  unfold initComponents, BarretenbergWasm_new, WorkerPool_new, request,
    new, set_jobQueue, set_coreSdk, sdk_on, transport_on, store.
  cbv [bind await log alloc modify ret throw fst snd
       jobQueue coreSdk heap next handlers closed trace].
  rewrite Hreq.
  match goal with |- context [barretenbergNew env ?x] =>
    destruct (barretenbergNew env x) as [[] | e | ] end.
  2,3: intros [= <- <-]; cbn [trace]; exists 0%nat; rewrite <- app_assoc; reflexivity.
  match goal with |- context [workerPoolNew env ?x ?n] =>
    destruct (workerPoolNew env x n) as [[] | e | ] end.
  2,3: intros [= <- <-]; cbn [trace]; exists 1%nat; rewrite <- !app_assoc; reflexivity.
  rewrite lookup_insert_eq.
  cbv [bind await log alloc modify ret throw fst snd
       jobQueue coreSdk heap next handlers closed trace].
  intros [= <- <-]. cbn [trace]. exists 10%nat. rewrite <- !app_assoc. reflexivity.
Qed.

(** C7: the first thing [initComponents] does is send the initialization
    request. While that request is pending, or once it is rejected, nothing
    has been created. Once it has resolved the run goes on to create the
    wasm module, and a run that completes has made, after the request and
    in this order, the Worker Pool, the pooled Pedersen, Pippenger and FFT
    wrappers, the job-queue dispatch (stored in [this.jobQueue]) and the
    job-queue worker wired to all of them. A run completes whenever the
    awaited calls resolve. *)
Theorem initComponents_request_first (env : Env) (o : BananaCoreSdkOptions)
    (w w' : World) (r : Outcome (gmap string loc)) :
  initComponents env o w = (r, w') ->
  let initMsg := {| fn := "initComponents"; args := [optionsVal o] |} in
  let n := next w in
  (exists k,
     trace w' = trace w ++ Request initMsg :: take k (tail (initEvents env o n))) /\
  ((forall v, transportRequest env w initMsg <> Resolved v) ->
     trace w' = trace w ++ [Request initMsg] /\
     heap w' = heap w /\ next w' = next w /\
     jobQueue w' = jobQueue w /\ coreSdk w' = coreSdk w /\
     handlers w' = handlers w /\
     forall res, r <> Resolved res) /\
  (forall v, transportRequest env w initMsg = Resolved v ->
     exists k,
       trace w' = trace w ++ Request initMsg :: WasmNew
                    :: take k (drop 2 (initEvents env o n))) /\
  (forall res, r = Resolved res ->
     trace w'
       = trace w
         ++ [ Request initMsg;
              WasmNew;
              WorkerPoolNew n (default (getNumWorkers env) (numWorkers o));
              New (2 + n)%nat (PooledPedersen n (1 + n)%nat);
              New (3 + n)%nat (PooledPippenger (1 + n)%nat);
              New (4 + n)%nat (PooledFftFactory (1 + n)%nat);
              New (5 + n)%nat (JobQueueDispatch jobQueueRequest);
              New (6 + n)%nat
                (JobQueueWorker (5 + n)%nat (2 + n)%nat (3 + n)%nat (4 + n)%nat);
              New (7 + n)%nat
                (BananaCoreSdk coreSdkRequest (6 + n)%nat (1 + n)%nat ∅);
              SdkOn (7 + n)%nat (DESTROYED env) closeTransport;
              TransportOn "event_msg" relayEvent;
              New (8 + n)%nat (CoreSdkClientStub (7 + n)%nat) ] /\
     heap w' !! (1 + n)%nat
       = Some (WorkerPool n (default (getNumWorkers env) (numWorkers o))) /\
     heap w' !! (2 + n)%nat = Some (PooledPedersen n (1 + n)%nat) /\
     heap w' !! (3 + n)%nat = Some (PooledPippenger (1 + n)%nat) /\
     heap w' !! (4 + n)%nat = Some (PooledFftFactory (1 + n)%nat) /\
     jobQueue w' = Some (5 + n)%nat /\
     heap w' !! (5 + n)%nat = Some (JobQueueDispatch jobQueueRequest) /\
     heap w' !! (6 + n)%nat
       = Some (JobQueueWorker (5 + n)%nat (2 + n)%nat (3 + n)%nat (4 + n)%nat)) /\
  (calm env -> exists res, r = Resolved res).
Proof.
  intros Hrun initMsg n.
  pose proof (initComponents_run env o w w' r Hrun)
    as ([k [Hk Htr]] & Hrej & Hpend & Hres & Hcalm).
  split; [| split; [| split; [| split]]].
  - destruct k as [| k]; [lia |]. exists k. exact Htr.
  - intros Hno.
    destruct (transportRequest env w initMsg) as [v | e | ] eqn:Hreq.
    + exfalso. exact (Hno v eq_refl).
    + destruct (Hrej e Hreq) as [-> ->].
      cbn [log modify snd trace heap next jobQueue coreSdk handlers].
      repeat split; congruence.
    + destruct (Hpend Hreq) as [-> ->].
      cbn [log modify snd trace heap next jobQueue coreSdk handlers].
      repeat split; congruence.
  - intros v Hv. exact (initComponents_after_response env o w w' r v Hrun Hv).
  - intros res ->. destruct (Hres res eq_refl) as [_ ->].
    split; [reflexivity |].
    split; [apply afterInit_pool |].
    split; [heap_at |]. split; [heap_at |]. split; [heap_at |].
    split; [reflexivity |]. split; [apply afterInit_jobQueue | heap_at].
  - exact Hcalm.
Qed.

Lemma initComponents_request_first_witness :
  (trace (snd (initComponents deafEnv fourWorkers newFrontend))
     = [Request {| fn := "initComponents"; args := [optionsVal fourWorkers] |}] /\
   heap (snd (initComponents deafEnv fourWorkers newFrontend)) = ∅) /\
  (trace (snd (initComponents calmEnv fourWorkers newFrontend))
     = initEvents calmEnv fourWorkers 0%nat /\
   heap (snd (initComponents calmEnv fourWorkers newFrontend)) !! 1%nat
     = Some (WorkerPool 0%nat 4)).
Proof.
  split.
  - assert (Hrun : initComponents deafEnv fourWorkers newFrontend
                   = (Rejected (Error "no backend"),
                      snd (log (Request {| fn := "initComponents";
                                           args := [optionsVal fourWorkers] |})
                               newFrontend)))
      by (vm_compute; reflexivity).
    destruct (initComponents_request_first deafEnv fourWorkers newFrontend _ _ Hrun)
      as (_ & H & _).
    destruct H as (Htr & Hheap & _).
    + intros v. cbn [deafEnv transportRequest]. discriminate.
    + rewrite Hrun. split; [exact Htr | exact Hheap].
  - assert (Hrun : initComponents calmEnv fourWorkers newFrontend
                   = (Resolved {[ "coreSdk" := 8%nat ]},
                      afterInit calmEnv fourWorkers newFrontend))
      by (vm_compute; reflexivity).
    destruct (initComponents_request_first calmEnv fourWorkers newFrontend _ _ Hrun)
      as (_ & _ & _ & H & _).
    destruct (H _ eq_refl) as (Htr & Hpool & _).
    rewrite Hrun. split; [exact Htr | exact Hpool].
Defined.

(** C6: a method call on the job-queue dispatch object that
    [initComponents] builds makes exactly one transport request, named
    'jobQueueDispatch', whose only argument is the [{fn, args}] message of
    the call; the call settles as that request does, so a rejection reaches
    the caller unchanged. *)
Theorem jobQueue_dispatch_forwards (env : Env) (w : World) (jq : loc)
    (method : string) (margs : list JsVal) :
  heap w !! jq = Some (JobQueueDispatch jobQueueRequest) ->
  let msg := {| fn := method; args := margs |} in
  let req := {| fn := "jobQueueDispatch"; args := [msgVal msg] |} in
  let answer :=
    transportRequest env (snd (log (Debug "job queue dispatch request: " msg) w)) req in
  let run := invokeMethod env jq method margs w in
  requests (trace (snd run)) = requests (trace w) ++ [req] /\
  fst run = answer /\
  (forall e, answer = Rejected e -> fst run = Rejected e) /\
  (forall v, answer = Resolved v -> fst run = Resolved v).
Proof.
  intros Hjq msg req answer run.
  assert (Hrun : run = (answer, snd (log (Request req)
                          (snd (log (Debug "job queue dispatch request: " msg) w))))).
  { unfold run, invokeMethod. rewrite Hjq.
    apply (callDispatchFn_run env jobQueueRequest msg w). }
  rewrite Hrun. cbn [fst snd log modify trace].
  split; [| split; [reflexivity | split; intros ? ->; reflexivity]].
  rewrite !requests_app. cbn. rewrite app_nil_r. reflexivity.
Qed.

Lemma jobQueue_dispatch_forwards_witness :
  let w := afterInit calmEnv noOptions newFrontend in
  heap w !! 5%nat = Some (JobQueueDispatch jobQueueRequest) /\
  requests (trace (snd (invokeMethod calmEnv 5%nat "getJob" [] w)))
    = requests (trace w)
      ++ [{| fn := "jobQueueDispatch";
             args := [msgVal {| fn := "getJob"; args := [] |}] |}].
Proof.
  intros w.
  assert (H : heap w !! 5%nat = Some (JobQueueDispatch jobQueueRequest))
    by (vm_compute; reflexivity).
  split; [exact H |].
  apply (jobQueue_dispatch_forwards calmEnv w 5%nat "getJob" [] H).
Defined.

(** One run of the relay arrow. *)
Lemma relayEvent_run (env : Env) (p : DispatchMsg) (w : World) :
  callTransportHandler env relayEvent p w
    = match member env w (fn p) with
      | Callable =>
        let w1 := snd (log (Invoke (fn p) (args p)) w) in
        if String.eqb (fn p) "initComponents"
        then (Resolved tt,
              snd (log (Request {| fn := "initComponents";
                                   args := [hd JUndefined (args p)] |}) w1))
        else (ended (memberCall env w1 (fn p) (args p)),
              resume w1 (memberCall env w1 (fn p) (args p)))
      | _ => (Rejected (TypeError "this[fn] is not a function"), w)
      end.
Proof.
  unfold callTransportHandler.
  destruct (member env w (fn p)); try reflexivity.
  unfold bind, log, modify, ret, relayedInitComponents, request. cbn.
  destruct (String.eqb (fn p) "initComponents"); reflexivity.
Qed.

(** A handler only ever adds to the trace. *)
Lemma callTransportHandler_extends (env : Env) (h : TransportHandler)
    (p : DispatchMsg) (w : World) :
  exists evs, trace (snd (callTransportHandler env h p w)) = trace w ++ evs.
Proof.
  destruct h. rewrite relayEvent_run.
  destruct (member env w (fn p)); try (exists []; rewrite app_nil_r; reflexivity).
  cbv zeta. destruct (String.eqb (fn p) "initComponents").
  - eexists. cbn [snd log modify trace]. rewrite <- app_assoc. reflexivity.
  - eexists. cbn [snd log modify trace resume]. rewrite <- app_assoc. reflexivity.
Qed.

Lemma forEach_extends (env : Env) (p : DispatchMsg) (hs : list TransportHandler) :
  forall w, exists evs,
    trace (snd (forEach (fun h => callTransportHandler env h p) hs w))
      = trace w ++ evs.
Proof.
  induction hs as [| h hs IH]; intros w.
  - exists []. cbn. rewrite app_nil_r. reflexivity.
  - cbn [forEach]. unfold bind at 1.
    destruct (callTransportHandler_extends env h p w) as [evs1 H1].
    destruct (callTransportHandler env h p w) as [[[] | e | ] w1];
      cbn [snd] in H1; try (exists evs1; exact H1).
    destruct (IH w1) as [evs2 H2]. exists (evs1 ++ evs2).
    rewrite H2, H1, app_assoc. reflexivity.
Qed.

Lemma transportReceive_once (env : Env) (p : DispatchMsg) (w : World) :
  handlers w !! "event_msg" = Some [relayEvent] ->
  transportReceive env "event_msg" p w
    = match member env w (fn p) with
      | Callable =>
        let w1 := snd (log (Invoke (fn p) (args p)) w) in
        if String.eqb (fn p) "initComponents"
        then (Resolved tt,
              snd (log (Request {| fn := "initComponents";
                                   args := [hd JUndefined (args p)] |}) w1))
        else (ended (memberCall env w1 (fn p) (args p)),
              resume w1 (memberCall env w1 (fn p) (args p)))
      | _ => (Rejected (TypeError "this[fn] is not a function"), w)
      end.
Proof.
  intros Hh. unfold transportReceive. rewrite Hh.
  cbn [default from_option id forEach].
  unfold bind. rewrite relayEvent_run.
  destruct (member env w (fn p)); try reflexivity.
  cbv zeta. destruct (String.eqb (fn p) "initComponents"); [reflexivity |].
  destruct (ended _) as [[] | e | ]; reflexivity.
Qed.

(** With no callable member of that name the first handler throws and the
    delivery ends there, whatever else is subscribed. *)
Lemma transportReceive_not_callable (env : Env) (p : DispatchMsg) (w : World)
    (h : TransportHandler) (hs : list TransportHandler) :
  handlers w !! "event_msg" = Some (h :: hs) ->
  member env w (fn p) <> Callable ->
  transportReceive env "event_msg" p w
    = (Rejected (TypeError "this[fn] is not a function"), w).
Proof.
  intros Hh Hm. unfold transportReceive. rewrite Hh.
  cbn [default from_option id forEach]. destruct h.
  unfold bind. rewrite relayEvent_run.
  destruct (member env w (fn p)); [reflexivity | reflexivity | contradiction].
Qed.

(** C3, as the code has it: an event message [{fn, args}] whose [fn] names a
    callable member of the frontend is relayed as it is: the first thing
    its delivery does is call that member with exactly [args], and with the
    handler subscribed once the delivery consists of that call and of what
    the called member does. A message whose [fn] names no callable member
    is not relayed: the handler throws a TypeError and nothing is called. *)
Theorem relayEvent_verbatim (env : Env) (p : DispatchMsg) (w : World)
    (h : TransportHandler) (hs : list TransportHandler) :
  handlers w !! "event_msg" = Some (h :: hs) ->
  let run := transportReceive env "event_msg" p w in
  let w1 := snd (log (Invoke (fn p) (args p)) w) in
  (member env w (fn p) = Callable ->
   exists rest, trace (snd run) = trace w ++ Invoke (fn p) (args p) :: rest) /\
  (member env w (fn p) = Callable -> hs = [] ->
   trace (snd run)
     = trace w ++ Invoke (fn p) (args p)
         :: (if String.eqb (fn p) "initComponents"
             then [Request {| fn := "initComponents";
                              args := [hd JUndefined (args p)] |}]
             else made (memberCall env w1 (fn p) (args p)))) /\
  (member env w (fn p) <> Callable ->
   run = (Rejected (TypeError "this[fn] is not a function"), w)).
Proof.
  intros Hh run w1. split; [| split].
  - intros Hm. unfold run, transportReceive. rewrite Hh.
    cbn [default from_option id forEach]. destruct h.
    unfold bind at 1. rewrite relayEvent_run, Hm. cbv zeta. fold w1.
    assert (Hstep : forall w2 evs,
      trace w2 = trace w ++ Invoke (fn p) (args p) :: evs ->
      exists rest,
        trace (snd (forEach (fun h => callTransportHandler env h p) hs w2))
          = trace w ++ Invoke (fn p) (args p) :: rest).
    { intros w2 evs Hevs.
      destruct (forEach_extends env p hs w2) as [evs2 H2].
      exists (evs ++ evs2). rewrite H2, Hevs, <- app_assoc. reflexivity. }
    destruct (String.eqb (fn p) "initComponents"); cbv beta iota.
    + eapply Hstep. unfold w1. cbn [snd log modify trace].
      rewrite <- app_assoc. reflexivity.
    + assert (Hw2 : trace (resume w1 (memberCall env w1 (fn p) (args p)))
                    = trace w ++ Invoke (fn p) (args p)
                        :: made (memberCall env w1 (fn p) (args p))).
      { unfold w1. cbn [snd log modify trace resume].
        rewrite <- app_assoc. reflexivity. }
      destruct (ended (memberCall env w1 (fn p) (args p))) as [[] | e | ];
        [eapply Hstep; exact Hw2 | eexists; exact Hw2 | eexists; exact Hw2].
  - intros Hm ->. destruct h. unfold run.
    rewrite (transportReceive_once env p w Hh), Hm. cbv zeta. fold w1.
    destruct (String.eqb (fn p) "initComponents"); unfold w1;
      cbn [snd log modify trace resume]; rewrite <- app_assoc; reflexivity.
  - intros Hm. exact (transportReceive_not_callable env p w h hs Hh Hm).
Qed.

Lemma relayEvent_verbatim_witness :
  let w := afterInit calmEnv noOptions newFrontend in
  let p := {| fn := "coreSdkDispatch";
              args := [msgVal {| fn := "emit"; args := [JStr "SDKEVENT_DESTROYED"] |}] |} in
  trace (snd (transportReceive calmEnv "event_msg" p w))
    = trace w ++ [Invoke "coreSdkDispatch"
                    [msgVal {| fn := "emit"; args := [JStr "SDKEVENT_DESTROYED"] |}]].
Proof.
  intros w p.
  destruct (relayEvent_verbatim calmEnv p w relayEvent []) as (_ & H & _).
  - vm_compute; reflexivity.
  - rewrite H; reflexivity.
Defined.

(** C3, as the spec has it, fails: the frontend has no member named [emit],
    so after initialization an event message [{fn: 'emit', args}] delivered
    to the subscribed handler is not relayed: the handler throws and the
    frontend is left exactly as it was, with nothing called. *)
Lemma relayEvent_drops_unknown_member :
  let w := snd (initComponents calmEnv noOptions newFrontend) in
  let p := {| fn := "emit"; args := [JStr "SDKEVENT_DESTROYED"] |} in
  handlers w !! "event_msg" = Some [relayEvent] /\
  transportReceive calmEnv "event_msg" p w
    = (Rejected (TypeError "this[fn] is not a function"), w).
Proof.
  intros w p. subst w p. split; vm_compute; reflexivity.
Qed.

(** C2, as the code has it: event messages are dispatched by looking [fn] up
    among the members of the frontend object, not in a table of handlers.
    When the frontend has no callable member of that name, handling fails
    with a TypeError and calls nothing; when it has one, that member is
    called. [initComponents], [jobQueueDispatch] and [coreSdkDispatch] are
    always callable members, and an event naming [initComponents] is
    handled without error: the method is called and sends its
    initialization request. *)
Theorem relayEvent_member_lookup (env : Env) (p : DispatchMsg) (w : World) :
  handlers w !! "event_msg" = Some [relayEvent] ->
  (member env w (fn p) <> Callable ->
   transportReceive env "event_msg" p w
     = (Rejected (TypeError "this[fn] is not a function"), w)) /\
  (member env w (fn p) = Callable ->
   Invoke (fn p) (args p) ∈ trace (snd (transportReceive env "event_msg" p w))) /\
  (fn p = "initComponents" \/ fn p = "jobQueueDispatch" \/ fn p = "coreSdkDispatch" ->
   member env w (fn p) = Callable) /\
  (fn p = "initComponents" ->
   transportReceive env "event_msg" p w
     = (Resolved tt,
        snd (log (Request {| fn := "initComponents";
                             args := [hd JUndefined (args p)] |})
               (snd (log (Invoke (fn p) (args p)) w))))).
Proof.
  intros Hh. rewrite (transportReceive_once env p w Hh).
  split; [| split; [| split]].
  - intros Hm. destruct (member env w (fn p)); [reflexivity | reflexivity | congruence].
  - intros ->. cbv zeta.
    destruct (String.eqb (fn p) "initComponents");
      cbn [snd log modify trace resume]; rewrite <- !app_assoc;
      apply elem_of_app; right; apply elem_of_cons; left; reflexivity.
  - intros [-> | [-> | ->]]; reflexivity.
  - intros ->. reflexivity.
Qed.

Lemma relayEvent_member_lookup_witness :
  let w := afterInit calmEnv noOptions newFrontend in
  transportReceive calmEnv "event_msg" {| fn := "emit"; args := [] |} w
    = (Rejected (TypeError "this[fn] is not a function"), w).
Proof.
  intros w.
  apply (relayEvent_member_lookup calmEnv {| fn := "emit"; args := [] |} w).
  - reflexivity.
  - cbn. discriminate.
Defined.

(** C2, as the spec has it, fails: after initialization the only names with
    a registered handler are the transport's 'event_msg' and the session's
    destroyed event, yet an event message naming [initComponents] does not
    fail: the method of that name is called. *)
Lemma relayEvent_invokes_unregistered_member :
  let w := snd (initComponents calmEnv noOptions newFrontend) in
  let p := {| fn := "initComponents"; args := [] |} in
  handlers w = {[ "event_msg" := [relayEvent] ]} /\
  heap w !! 7%nat
    = Some (BananaCoreSdk coreSdkRequest 6%nat 1%nat
              {[ "SDKEVENT_DESTROYED" := [closeTransport] ]}) /\
  handlers w !! fn p = None /\
  transportReceive calmEnv "event_msg" p w
    = (Resolved tt,
       snd (log (Request {| fn := "initComponents"; args := [JUndefined] |})
              (snd (log (Invoke "initComponents" []) w)))).
Proof.
  intros w p. subst w p.
  split; [| split; [| split]]; vm_compute; reflexivity.
Qed.

(** C4: the listener [initComponents] registers on the session object for
    the DESTROYED event closes the transport: once initialization has
    completed, that listener is the one subscribed, and when the session
    object emits DESTROYED locally the next thing that happens is
    [transportClient.close()]. *)
Theorem destroyed_closes_transport (env : Env) (o : BananaCoreSdkOptions)
    (w w' : World) (res : gmap string loc) :
  initComponents env o w = (Resolved res, w') ->
  exists sdk d jw pool,
    coreSdk w' = Some sdk /\
    heap w' !! sdk
      = Some (BananaCoreSdk d jw pool (<[DESTROYED env := [closeTransport]]> ∅)) /\
    SdkOn sdk (DESTROYED env) closeTransport ∈ trace w' /\
    fst (sdkEmit sdk (DESTROYED env) w') = Resolved tt /\
    trace (snd (sdkEmit sdk (DESTROYED env) w')) = trace w' ++ [TransportClose] /\
    closed (snd (sdkEmit sdk (DESTROYED env) w')) = true.
Proof.
  intros Hrun.
  pose proof (initComponents_run env o w w' _ Hrun) as (_ & _ & _ & Hres & _).
  destruct (Hres res eq_refl) as [_ ->].
  exists (7 + next w)%nat, coreSdkRequest, (6 + next w)%nat, (1 + next w)%nat.
  split; [reflexivity |]. split; [apply afterInit_coreSdk |].
  split.
  - cbn [afterInit trace]. apply elem_of_app. right.
    unfold initEvents. repeat (apply elem_of_cons; first [left; reflexivity | right]).
  - unfold sdkEmit. rewrite afterInit_coreSdk, lookup_insert_eq.
    repeat split.
Qed.

Lemma destroyed_closes_transport_witness :
  closed (snd (sdkEmit 7%nat "SDKEVENT_DESTROYED"
                 (afterInit calmEnv noOptions newFrontend))) = true.
Proof.
  assert (Hrun : initComponents calmEnv noOptions newFrontend
                 = (Resolved {[ "coreSdk" := 8%nat ]},
                    afterInit calmEnv noOptions newFrontend))
    by (vm_compute; reflexivity).
  destruct (destroyed_closes_transport calmEnv noOptions newFrontend
              (afterInit calmEnv noOptions newFrontend)
              {[ "coreSdk" := 8%nat ]} Hrun)
    as (sdk & d & jw & pool & Hsdk & _ & _ & _ & _ & Hclosed).
  injection Hsdk as <-. exact Hclosed.
Defined.




End FrontendFacts.

(** * Further properties *)

(** ** validateDefiForm: the early returns, the limit and the fee *)

Section DefiFormMore.
Import DefiForm DefiFormInputs.

(** The result on a fully populated input, field by field. *)
Lemma validateDefiForm_full (i : DefiFormValidationInput) (af : AmountFactory)
    (tg fee : Amount) (bt bf lim : Z) :
  amountFactory i = Some af -> targetDepositAmount i = Some tg ->
  feeAmount i = Some fee -> balanceInTargetAsset i = Some bt ->
  balanceInFeePayingAsset i = Some bf -> transactionLimit i = Some lim ->
  let f := if id tg =? id fee then baseUnits fee else 0 in
  let valid := negb (bt <? baseUnits tg + f) && negb (bf <? baseUnits fee)
               && negb (baseUnits tg >? lim) && negb (baseUnits tg <=? 0) in
  validateDefiForm i
    = {| loading := None; unrecognisedTargetAmount := None;
         insufficientTargetAssetBalance := Some (bt <? baseUnits tg + f);
         insufficientFeePayingAssetBalance := Some (bf <? baseUnits fee);
         mustAllowForFee := Some ((bt <? baseUnits tg + f) && (bt >=? baseUnits tg));
         beyondTransactionLimit := Some (baseUnits tg >? lim);
         noAmount := Some (baseUnits tg <=? 0);
         isValid := Some valid;
         validPayload :=
           if valid
           then Some {| payloadTargetDepositAmount := tg; payloadFeeAmount := fee |}
           else None;
         maxOutput := Some (min (bt - f) lim);
         input := i |}.
Proof.
  intros Haf Htg Hfee Hbt Hbf Hlim. unfold validateDefiForm.
  rewrite Haf, Htg, Hfee, Hbt, Hbf, Hlim. reflexivity.
Qed.

Ltac compare_all :=
  unfold min, Z.gtb, Z.geb, Z.leb, Z.ltb in *;
  repeat match goal with
         | |- context [(?a ?= ?b)] => destruct (Z.compare_spec a b)
         | H : context [(?a ?= ?b)] |- _ => destruct (Z.compare_spec a b)
         end;
  cbn in *; try discriminate; try lia.

(** X1: while any of amountFactory, feeAmount and the two balances is
    missing the result is exactly [{ loading: true, input }]; with those
    present but the target amount or the transaction limit missing it is
    exactly [{ unrecognisedTargetAmount: true, input }]. Loading wins when
    both apply, and neither result carries a verdict. *)
Theorem validateDefiForm_incomplete (i : DefiFormValidationInput) :
  (~ loaded i ->
   validateDefiForm i
     = {| loading := Some true; unrecognisedTargetAmount := None;
          insufficientTargetAssetBalance := None;
          insufficientFeePayingAssetBalance := None;
          mustAllowForFee := None; beyondTransactionLimit := None;
          noAmount := None; isValid := None; validPayload := None;
          maxOutput := None; input := i |}) /\
  (loaded i -> ~ fullyPopulated i ->
   validateDefiForm i
     = {| loading := None; unrecognisedTargetAmount := Some true;
          insufficientTargetAssetBalance := None;
          insufficientFeePayingAssetBalance := None;
          mustAllowForFee := None; beyondTransactionLimit := None;
          noAmount := None; isValid := None; validPayload := None;
          maxOutput := None; input := i |}) /\
  (is_Some (isValid (validateDefiForm i)) <-> fullyPopulated i).
Proof.
  unfold loaded, fullyPopulated, validateDefiForm.
  destruct (amountFactory i), (feeAmount i), (balanceInTargetAsset i),
    (balanceInFeePayingAsset i), (targetDepositAmount i), (transactionLimit i);
    cbn; (split; [| split; [| split]]);
    try reflexivity;
    try (intros H; exfalso; apply H; repeat split; eexists; reflexivity);
    try (intros _ H; exfalso; apply H; repeat split; eexists; reflexivity);
    try (intros _; repeat split; eexists; reflexivity);
    try (intros [? H]; discriminate H);
    try (intros H; exfalso; decompose [and] H;
         repeat match goal with X : is_Some None |- _ => destruct X; discriminate end);
    try (intros; eexists; reflexivity).
Qed.

Lemma validateDefiForm_incomplete_witness :
  loading (validateDefiForm
      {| fields := fields sampleInput; amountFactory := None;
         depositAsset := depositAsset sampleInput;
         targetDepositAmount := None; balanceInTargetAsset := Some 10;
         feeAmount := feeAmount sampleInput;
         balanceInFeePayingAsset := Some 10; transactionLimit := None |})
    = Some true.
Proof.
  destruct (validateDefiForm_incomplete
      {| fields := fields sampleInput; amountFactory := None;
         depositAsset := depositAsset sampleInput;
         targetDepositAmount := None; balanceInTargetAsset := Some 10;
         feeAmount := feeAmount sampleInput;
         balanceInFeePayingAsset := Some 10; transactionLimit := None |})
    as (H & _ & _).
  rewrite H; [reflexivity |].
  intros ([x Hx] & _). cbn in Hx. discriminate Hx.
Defined.

(** X2: on a fully populated input the form is valid exactly when the
    amount is positive, at most [maxOutput], and the fee-paying balance
    covers the fee. [maxOutput] is the smaller of the transaction limit and
    the target balance less the fee when the target asset pays it. *)
Theorem validateDefiForm_valid_within_max (i : DefiFormValidationInput)
    (tg fee : Amount) (bt bf lim : Z) :
  is_Some (amountFactory i) -> targetDepositAmount i = Some tg ->
  feeAmount i = Some fee -> balanceInTargetAsset i = Some bt ->
  balanceInFeePayingAsset i = Some bf -> transactionLimit i = Some lim ->
  let r := validateDefiForm i in
  let m := Z.min (bt - (if id tg =? id fee then baseUnits fee else 0)) lim in
  maxOutput r = Some m /\
  (isValid r = Some true <->
     0 < baseUnits tg <= m /\ baseUnits fee <= bf).
Proof.
  intros [af Haf] Htg Hfee Hbt Hbf Hlim r m. unfold r, m.
  rewrite (validateDefiForm_full i af tg fee bt bf lim Haf Htg Hfee Hbt Hbf Hlim).
  cbn [maxOutput isValid].
  destruct (id tg =? id fee); split.
  - f_equal. compare_all.
  - split; [intros [= H] | intros H]; [| f_equal]; compare_all.
  - f_equal. compare_all.
  - split; [intros [= H] | intros H]; [| f_equal]; compare_all.
Qed.

Lemma validateDefiForm_valid_within_max_witness :
  maxOutput (validateDefiForm sampleInput) = Some 8 /\
  isValid (validateDefiForm sampleInput) = Some true.
Proof.
  destruct (validateDefiForm_valid_within_max sampleInput
              {| id := 0; baseUnits := 5 |} {| id := 0; baseUnits := 2 |} 10 10 8)
    as [Hm Hv]; try reflexivity; [eexists; reflexivity |].
  split; [exact Hm |]. apply Hv. cbn. lia.
Defined.

(** X3: [maxOutput] does not depend on the amount typed in, and typing
    exactly [maxOutput] gives a valid form whenever it is positive and the
    fee-paying balance covers the fee, while any larger amount is invalid. *)
Theorem validateDefiForm_max_amount (i : DefiFormValidationInput)
    (fee : Amount) (bf m : Z) :
  fullyPopulated i ->
  feeAmount i = Some fee -> balanceInFeePayingAsset i = Some bf ->
  maxOutput (validateDefiForm i) = Some m ->
  (forall a, maxOutput (validateDefiForm (withAmount i a)) = Some m) /\
  (0 < m -> baseUnits fee <= bf ->
   isValid (validateDefiForm (withAmount i m)) = Some true) /\
  (forall a, m < a -> isValid (validateDefiForm (withAmount i a)) = Some false).
Proof.
  intros ([af Haf] & _ & [bt Hbt] & _ & [lim Hlim] & [tg Htg]) Hfee Hbf.
  rewrite (validateDefiForm_full i af tg fee bt bf lim Haf Htg Hfee Hbt Hbf Hlim).
  cbn [maxOutput]. intros [= Hm].
  assert (Hw : forall a,
    validateDefiForm (withAmount i a)
      = _) by
    (intros a;
     apply (validateDefiForm_full (withAmount i a) af
              {| id := id tg; baseUnits := a |} fee bt bf lim);
     cbn; try assumption; rewrite Htg; reflexivity).
  split; [| split].
  - intros a. rewrite Hw. cbn [maxOutput id baseUnits]. f_equal. exact Hm.
  - intros Hpos Hcov. rewrite Hw. cbn [isValid id baseUnits]. f_equal.
    revert Hm. destruct (id tg =? id fee); intros Hm; compare_all.
  - intros a Ha. rewrite Hw. cbn [isValid id baseUnits]. f_equal.
    revert Hm. destruct (id tg =? id fee); intros Hm; compare_all.
Qed.

Lemma validateDefiForm_max_amount_witness :
  isValid (validateDefiForm (withAmount sampleInput 8)) = Some true /\
  isValid (validateDefiForm (withAmount sampleInput 9)) = Some false.
Proof.
  assert (Hfull : fullyPopulated sampleInput)
    by (repeat split; eexists; reflexivity).
  destruct (validateDefiForm_max_amount sampleInput {| id := 0; baseUnits := 2 |}
              10 8 Hfull eq_refl eq_refl eq_refl) as (_ & Hmax & Hover).
  split; [apply Hmax; cbn; lia | apply Hover; lia].
Defined.

(** X4: [mustAllowForFee] is raised exactly when the target asset also pays
    the fee and the balance covers the amount but not the amount plus the
    fee; the form is then invalid. *)
Theorem validateDefiForm_mustAllowForFee (i : DefiFormValidationInput)
    (tg fee : Amount) (bt : Z) :
  fullyPopulated i ->
  targetDepositAmount i = Some tg -> feeAmount i = Some fee ->
  balanceInTargetAsset i = Some bt ->
  let r := validateDefiForm i in
  (mustAllowForFee r = Some true <->
     id tg = id fee /\ baseUnits tg <= bt < baseUnits tg + baseUnits fee) /\
  (mustAllowForFee r = Some true ->
     insufficientTargetAssetBalance r = Some true /\ isValid r = Some false).
Proof.
  intros ([af Haf] & _ & _ & [bf Hbf] & [lim Hlim] & _) Htg Hfee Hbt r. unfold r.
  rewrite (validateDefiForm_full i af tg fee bt bf lim Haf Htg Hfee Hbt Hbf Hlim).
  cbn [mustAllowForFee insufficientTargetAssetBalance isValid].
  destruct (Z.eqb_spec (id tg) (id fee)) as [Hid | Hid].
  - split; [split |].
    + intros [= H]. split; [exact Hid |]. compare_all.
    + intros [_ H]. f_equal. compare_all.
    + intros [= H]. split; f_equal; compare_all.
  - split; [split |].
    + intros [= H]. exfalso. compare_all.
    + intros [H _]. contradiction.
    + intros [= H]. exfalso. compare_all.
Qed.

Lemma validateDefiForm_mustAllowForFee_witness :
  mustAllowForFee (validateDefiForm (withFunds sampleInput 6 10 8)) = Some true.
Proof.
  assert (Hfull : fullyPopulated (withFunds sampleInput 6 10 8))
    by (repeat split; eexists; reflexivity).
  destruct (validateDefiForm_mustAllowForFee (withFunds sampleInput 6 10 8)
              {| id := 0; baseUnits := 5 |} {| id := 0; baseUnits := 2 |} 6
              Hfull eq_refl eq_refl eq_refl) as [[_ H] _].
  apply H. cbn [id baseUnits]. split; [reflexivity | lia].
Defined.

(** X5: more funds never invalidate a form: a form valid with some balances
    and limit is valid with any balances and limit at least as large. *)
Theorem validateDefiForm_more_funds (i : DefiFormValidationInput)
    (bt bf lim bt' bf' lim' : Z) :
  balanceInTargetAsset i = Some bt -> balanceInFeePayingAsset i = Some bf ->
  transactionLimit i = Some lim ->
  bt <= bt' -> bf <= bf' -> lim <= lim' ->
  isValid (validateDefiForm i) = Some true ->
  isValid (validateDefiForm (withFunds i bt' bf' lim')) = Some true.
Proof.
  intros Hbt Hbf Hlim Lbt Lbf Llim Hvalid.
  assert (Hfull : fullyPopulated i).
  { apply (validateDefiForm_incomplete i). rewrite Hvalid. eexists; reflexivity. }
  destruct Hfull as ([af Haf] & [fee Hfee] & _ & _ & _ & [tg Htg]).
  rewrite (validateDefiForm_full i af tg fee bt bf lim Haf Htg Hfee Hbt Hbf Hlim)
    in Hvalid.
  rewrite (validateDefiForm_full (withFunds i bt' bf' lim') af tg fee bt' bf' lim'
             Haf Htg Hfee eq_refl eq_refl eq_refl).
  cbn [isValid] in *. injection Hvalid as Hvalid. f_equal.
  destruct (id tg =? id fee); compare_all.
Qed.

Lemma validateDefiForm_more_funds_witness :
  isValid (validateDefiForm (withFunds sampleInput 20 11 9)) = Some true.
Proof.
  apply (validateDefiForm_more_funds sampleInput 10 10 8 20 11 9);
    try reflexivity; lia.
Defined.

End DefiFormMore.

(** ** getSigner and deployContracts: the whole run *)

Section DeployMore.
Import Deploy DeployRuns.

Lemma truthy_Some (h : string) : h <> "" -> truthy (Some h) = true.
Proof.
  intros Hh. unfold truthy. destruct (String.eqb_spec h ""); [contradiction | reflexivity].
Qed.

Lemma getSigner_run (env : Env) (h : string) (privateKey : option string)
    (t : Trace) :
  h <> "" -> walletAccepted env privateKey ->
  getSigner env (Some h) privateKey t
    = (Resolved (signerOf h privateKey), t ++ signerEvents h privateKey).
Proof.
  intros Hh Hw. unfold getSigner, signerOf, signerEvents.
  rewrite (truthy_Some h Hh).
  destruct privateKey as [pk |]; [destruct (truthy (Some pk)) eqn:Hpk |];
    cbv [bind emit modify ret throw fst snd]; rewrite <- ?app_assoc;
    try reflexivity.
  rewrite (Hw pk eq_refl); [reflexivity |].
  intros ->. discriminate Hpk.
Qed.

(** A key the Wallet constructor refuses ends [getSigner], after the
    provider has been made. *)
Lemma getSigner_refused (env : Env) (h pk : string) (e : JsError) (t : Trace) :
  h <> "" -> pk <> "" -> newWallet env pk = Some e ->
  getSigner env (Some h) (Some pk) t
    = (Rejected e, t ++ signerEvents h (Some pk)).
Proof.
  intros Hh Hpk He. unfold getSigner, signerEvents.
  rewrite (truthy_Some h Hh), (truthy_Some pk Hpk).
  cbv [bind emit modify ret throw fst snd]. rewrite He, <- ?app_assoc. reflexivity.
Qed.

(** Every way a run of [deployContracts] with a host can go once the signer
    is there. *)
Lemma deployContracts_run (env : Env) (h : string) (vk privateKey : option string)
    (fo rp : option EthAddress) (t : Trace) :
  h <> "" -> walletAccepted env privateKey ->
  let signer := signerOf h privateKey in
  let t0 := t ++ signerEvents h privateKey in
  deployContracts env (Some h) vk privateKey fo rp t
    = match signerGetAddress env signer with
      | Resolved a =>
        match signerGetChainId env signer with
        | Resolved c =>
          match getInitData env c with
          | Resolved tid =>
            let call := deploy h c signer tid (keyOf vk) fo rp in
            let t1 := t0 ++ chainEvents a c vk fo rp ++ treeEvents tid
                         ++ [RunDeploy call] in
            match runDeploy env call with
            | Resolved k => (Resolved (envVarsOf k), t1)
            | o => (stop o, t1)
            end
          | o => (stop o, t0 ++ chainEvents a c vk fo rp)
          end
        | o => (stop o, t0 ++ [GetAddress; ConsoleLog "Signer: " (JStr a); GetChainId])
        end
      | o => (stop o, t0 ++ [GetAddress])
      end.
Proof.
  intros Hh Hw signer t0. unfold deployContracts.
  unfold bind at 1. rewrite (getSigner_run env h privateKey t Hh Hw).
  fold signer. fold t0.
  cbv [bind emit modify await ret fst snd].
  destruct (signerGetAddress env signer) as [a | e | ]; try reflexivity.
  destruct (signerGetChainId env signer) as [c | e | ];
    try (rewrite <- !app_assoc; reflexivity).
  destruct (getInitData env c) as [tid | e | ];
    unfold chainEvents, treeEvents, keyOf, envVarsOf;
    rewrite <- !app_assoc; reflexivity.
Qed.

Lemma deployContracts_refused (env : Env) (h pk : string) (e : JsError)
    (vk : option string) (fo rp : option EthAddress) (t : Trace) :
  h <> "" -> pk <> "" -> newWallet env pk = Some e ->
  deployContracts env (Some h) vk (Some pk) fo rp t
    = (Rejected e, t ++ signerEvents h (Some pk)).
Proof.
  intros Hh Hpk He. unfold deployContracts.
  unfold bind at 1. rewrite (getSigner_refused env h pk e t Hh Hpk He). reflexivity.
Qed.

(** Either the Wallet constructor accepts the key, or it refuses a
    non-empty one. *)
Lemma wallet_cases (env : Env) (privateKey : option string) :
  walletAccepted env privateKey \/
  exists pk e, privateKey = Some pk /\ pk <> "" /\ newWallet env pk = Some e.
Proof.
  destruct privateKey as [pk |]; [| left; intros pk [=]].
  destruct (String.eqb_spec pk "") as [-> | Hpk].
  - left. intros pk [= <-] H. contradiction.
  - destruct (newWallet env pk) as [e |] eqn:He.
    + right. exists pk, e. auto.
    + left. intros pk' [= <-] _. exact He.
Qed.

End DeployMore.

(** ** getSigner and deployContracts: what a run does *)

Section DeployRunFacts.
Import Deploy DeployRuns.

Lemma scripts_app (t1 t2 : Trace) : scripts (t1 ++ t2) = scripts t1 ++ scripts t2.
Proof. unfold scripts. apply omap_app. Qed.

Lemma scripts_signerEvents (h : string) (privateKey : option string) :
  scripts (signerEvents h privateKey) = [].
Proof.
  unfold signerEvents.
  destruct privateKey as [pk |]; [destruct (truthy (Some pk)) |]; reflexivity.
Qed.

(** X6: with a host, [getSigner] makes a provider for that host and can
    fail only where it builds a wallet: with the private key absent or
    empty it hands back the provider's account 0 without building one; with
    a non-empty key it builds a wallet on the provider, and what the Wallet
    constructor throws for that key, if anything, is what [getSigner]
    throws. The signer handed back is always nonce-managed. *)
Theorem getSigner_with_host (env : Env) (h : string) (privateKey : option string)
    (t : Trace) :
  h <> "" ->
  NewJsonRpcProvider h ∈ snd (getSigner env (Some h) privateKey t) /\
  (privateKey = None \/ privateKey = Some "" ->
     getSigner env (Some h) privateKey t
       = (Resolved (NonceManager (ProviderSigner h 0)),
          t ++ [ConsoleLog "Json rpc provider: " (JStr h);
                NewJsonRpcProvider h; ProviderGetSigner 0])) /\
  (forall pk, privateKey = Some pk -> pk <> "" -> newWallet env pk = None ->
     getSigner env (Some h) privateKey t
       = (Resolved (NonceManager (Wallet pk h)),
          t ++ [ConsoleLog "Json rpc provider: " (JStr h);
                NewJsonRpcProvider h; NewWallet pk])) /\
  (forall pk e, privateKey = Some pk -> pk <> "" -> newWallet env pk = Some e ->
     getSigner env (Some h) privateKey t
       = (Rejected e,
          t ++ [ConsoleLog "Json rpc provider: " (JStr h);
                NewJsonRpcProvider h; NewWallet pk])).
Proof.
  intros Hh.
  assert (Hin : forall e3, NewJsonRpcProvider h
                  ∈ t ++ [ConsoleLog "Json rpc provider: " (JStr h);
                          NewJsonRpcProvider h; e3]).
  { intros e3. apply elem_of_app. right. apply elem_of_cons. right.
    apply elem_of_cons. left. reflexivity. }
  split; [| split; [| split]].
  - destruct (wallet_cases env privateKey) as [Hw | (pk & e & -> & Hpk & He)].
    + rewrite (getSigner_run env h privateKey t Hh Hw). apply Hin.
    + rewrite (getSigner_refused env h pk e t Hh Hpk He). apply Hin.
  - intros Hnone.
    rewrite (getSigner_run env h privateKey t Hh);
      [destruct Hnone as [-> | ->]; reflexivity |].
    intros pk Hpk Hne. destruct Hnone as [-> | ->]; congruence.
  - intros pk -> Hpk He.
    rewrite (getSigner_run env h (Some pk) t Hh);
      [| intros pk' [= <-] _; exact He].
    unfold signerOf, signerEvents. rewrite (truthy_Some pk Hpk). reflexivity.
  - intros pk e -> Hpk He.
    rewrite (getSigner_refused env h pk e t Hh Hpk He).
    unfold signerEvents. rewrite (truthy_Some pk Hpk). reflexivity.
Qed.

Lemma getSigner_with_host_witness :
  let env := {| newWallet := fun _ => Some (Error "invalid private key");
                signerGetAddress := signerGetAddress (sampleEnv 1);
                signerGetChainId := signerGetChainId (sampleEnv 1);
                getInitData := getInitData (sampleEnv 1);
                runDeploy := runDeploy (sampleEnv 1) |} in
  fst (getSigner env (Some "http://localhost:8545") (Some "") [])
    = Resolved (NonceManager (ProviderSigner "http://localhost:8545" 0)) /\
  fst (getSigner env (Some "http://localhost:8545") (Some "not-a-key") [])
    = Rejected (Error "invalid private key").
Proof.
  intros env. split.
  - destruct (getSigner_with_host env "http://localhost:8545" (Some "") [])
      as (_ & H & _); [discriminate |].
    rewrite H; [reflexivity | right; reflexivity].
  - destruct (getSigner_with_host env "http://localhost:8545" (Some "not-a-key") [])
      as (_ & _ & _ & H); [discriminate |].
    rewrite (H "not-a-key" (Error "invalid private key"));
      [reflexivity | reflexivity | discriminate | reflexivity].
Defined.

(** X7: a run of [deployContracts] that completes has run exactly one deploy
    script: the one [deploy] picks for the chain id the signer reported,
    with the tree data of that chain id and with the given verification key,
    or 'MockVerificationKey' when none (or an empty one) is given; the
    environment variables it returns are the addresses that script
    deployed. *)
Theorem deployContracts_completed (env : Env) (h : string)
    (vk privateKey : option string) (fo rp : option EthAddress)
    (t t' : Trace) (vars : EnvVars) :
  h <> "" ->
  deployContracts env (Some h) vk privateKey fo rp t = (Resolved vars, t') ->
  let signer := signerOf h privateKey in
  exists chainId tid contracts,
    signerGetChainId env signer = Resolved chainId /\
    getInitData env chainId = Resolved tid /\
    let call := deploy h chainId signer tid
                  (match vk with
                   | Some k => if String.eqb k "" then "MockVerificationKey" else k
                   | None => "MockVerificationKey"
                   end) fo rp in
    runDeploy env call = Resolved contracts /\
    scripts t' = scripts t ++ [call] /\
    vars = envVarsOf contracts.
Proof.
  intros Hh Hrun signer.
  destruct (wallet_cases env privateKey) as [Hw | (pk & e & -> & Hpk & He)];
    [| rewrite (deployContracts_refused env h pk e vk fo rp t Hh Hpk He) in Hrun;
       discriminate].
  rewrite (deployContracts_run env h vk privateKey fo rp t Hh Hw) in Hrun.
  fold signer in Hrun.
  destruct (signerGetAddress env signer) as [a | e | ]; try discriminate.
  destruct (signerGetChainId env signer) as [c | e | ]; try discriminate.
  destruct (getInitData env c) as [tid | e | ] eqn:Htid; try discriminate.
  cbv zeta in Hrun.
  assert (Hkey : keyOf vk = match vk with
                            | Some k => if String.eqb k "" then "MockVerificationKey" else k
                            | None => "MockVerificationKey"
                            end).
  { unfold keyOf, truthy. destruct vk as [k |]; [| reflexivity].
    destruct (String.eqb k ""); reflexivity. }
  rewrite Hkey in Hrun.
  destruct (runDeploy env _) as [k | e | ] eqn:Hk; try discriminate.
  injection Hrun as <- <-.
  exists c, tid, k. repeat split; try assumption.
  rewrite !scripts_app, scripts_signerEvents. cbn. rewrite app_nil_r. reflexivity.
Qed.

Lemma deployContracts_completed_witness :
  exists t' vars,
    deployContracts (sampleEnv 0xa57ec) (Some "http://fork") None None None None []
      = (Resolved vars, t') /\
    scripts t'
      = [deployMainnetFork "http://fork" (signerOf "http://fork" None) sampleTree
           "MockVerificationKey" None None].
Proof.
  assert (Hrun : deployContracts (sampleEnv 0xa57ec) (Some "http://fork")
                   None None None None []
                 = (fst (deployContracts (sampleEnv 0xa57ec) (Some "http://fork")
                           None None None None []),
                    snd (deployContracts (sampleEnv 0xa57ec) (Some "http://fork")
                           None None None None [])))
    by (vm_compute; reflexivity).
  eexists _, _. split; [exact Hrun |].
  destruct (deployContracts_completed (sampleEnv 0xa57ec) "http://fork"
              None None None None [] _ _ ltac:(discriminate) Hrun)
    as (c & tid & k & Hc & Htid & _ & Hs & _).
  injection Hc as <-. injection Htid as <-. exact Hs.
Defined.

(** X8: when the wallet cannot be built, or the signer's address, the chain
    id or the initial tree data cannot be obtained, [deployContracts] fails
    with that very error and no deploy script is run. *)
Theorem deployContracts_stops_before_deploy (env : Env) (h : string)
    (vk privateKey : option string) (fo rp : option EthAddress)
    (t : Trace) (e : JsError) :
  h <> "" ->
  let signer := signerOf h privateKey in
  (exists pk, privateKey = Some pk /\ pk <> "" /\ newWallet env pk = Some e) \/
  (walletAccepted env privateKey /\
   (signerGetAddress env signer = Rejected e \/
    ((exists a, signerGetAddress env signer = Resolved a) /\
     signerGetChainId env signer = Rejected e) \/
    ((exists a, signerGetAddress env signer = Resolved a) /\
     exists c, signerGetChainId env signer = Resolved c /\
               getInitData env c = Rejected e))) ->
  fst (deployContracts env (Some h) vk privateKey fo rp t) = Rejected e /\
  scripts (snd (deployContracts env (Some h) vk privateKey fo rp t)) = scripts t.
Proof.
  intros Hh signer [(pk & -> & Hpk & He) | [Hw Hfail]].
  - rewrite (deployContracts_refused env h pk e vk fo rp t Hh Hpk He).
    cbn [fst snd]. rewrite scripts_app, scripts_signerEvents, app_nil_r. auto.
  - rewrite (deployContracts_run env h vk privateKey fo rp t Hh Hw). fold signer.
    destruct Hfail as [Ha | [[[a Ha] Hc] | [[a Ha] (c & Hc & Htid)]]].
    + rewrite Ha. cbn [fst snd stop].
      rewrite !scripts_app, scripts_signerEvents. cbn. rewrite !app_nil_r. auto.
    + rewrite Ha, Hc. cbn [fst snd stop].
      rewrite !scripts_app, scripts_signerEvents. cbn. rewrite !app_nil_r. auto.
    + rewrite Ha, Hc, Htid. cbn [fst snd stop].
      rewrite !scripts_app, scripts_signerEvents. cbn. rewrite !app_nil_r. auto.
Qed.

Lemma deployContracts_stops_before_deploy_witness :
  let env := {| newWallet := fun _ => None;
                signerGetAddress := fun _ => Resolved "0xf39f";
                signerGetChainId := fun _ => Rejected (Error "network down");
                getInitData := fun _ => Resolved sampleTree;
                runDeploy := runDeploy (sampleEnv 1) |} in
  fst (deployContracts env (Some "http://localhost:8545") None None None None [])
    = Rejected (Error "network down").
Proof.
  intros env.
  apply (deployContracts_stops_before_deploy env "http://localhost:8545"
           None None None None [] (Error "network down")); [discriminate |].
  right. split; [intros pk [=] |].
  right. left. split; [eexists; reflexivity | reflexivity].
Defined.

End DeployRunFacts.

(** ** ServiceWorkerFrontend: failed runs, repeated runs, data fields *)

Section FrontendMore.
Import Frontend FrontendEnvs.

Ltac heap_read :=
  unfold afterInit; cbn [heap next];
  repeat (rewrite lookup_insert_ne by lia);
  try apply lookup_insert_eq.

(** X9: [initComponents] wires the frontend only as its last steps: a run
    that does not complete has sent the initialization request but has left
    [this.jobQueue], [this.coreSdk] and the transport's subscriptions as
    they were, has registered no listener, and has not closed the
    transport. *)
Theorem initComponents_unwired_on_failure (env : Env) (o : BananaCoreSdkOptions)
    (w w' : World) (r : Outcome (gmap string loc)) :
  initComponents env o w = (r, w') ->
  (forall res, r <> Resolved res) ->
  jobQueue w' = jobQueue w /\ coreSdk w' = coreSdk w /\
  handlers w' = handlers w /\ closed w' = closed w /\
  exists evs,
    trace w' = trace w ++ Request {| fn := "initComponents"; args := [optionsVal o] |} :: evs /\
    forall e, e ∈ evs -> exists b n, e = WasmNew \/ e = WorkerPoolNew b n.
Proof.
  unfold initComponents, BarretenbergWasm_new, WorkerPool_new, request,
    new, set_jobQueue, set_coreSdk, sdk_on, transport_on, store.
  cbv [bind await log alloc modify ret throw fst snd
       jobQueue coreSdk heap next handlers closed trace].
  destruct (transportRequest env w _) as [v | e | ].
  2,3: intros [= <- <-] _; cbn [jobQueue coreSdk handlers closed trace];
       repeat split; exists []; (split; [reflexivity |]);
       intros x Hx; apply elem_of_nil in Hx; contradiction.
  match goal with |- context [barretenbergNew env ?x] =>
    destruct (barretenbergNew env x) as [[] | e | ] end.
  2,3: intros [= <- <-] _; cbn [jobQueue coreSdk handlers closed trace];
       repeat split; exists [WasmNew]; (split; [rewrite <- app_assoc; reflexivity |]);
       intros x Hx; apply list_elem_of_singleton in Hx; subst x;
       exists 0%nat, 0; left; reflexivity.
  match goal with |- context [workerPoolNew env ?x ?n] =>
    destruct (workerPoolNew env x n) as [[] | e | ] end.
  2,3: intros [= <- <-] _; cbn [jobQueue coreSdk handlers closed trace];
       repeat split; eexists [WasmNew; WorkerPoolNew _ _];
       (split; [rewrite <- !app_assoc; reflexivity |]);
       intros x Hx; apply elem_of_cons in Hx as [-> | Hx];
       [exists 0%nat, 0; left; reflexivity |];
       apply list_elem_of_singleton in Hx; subst x;
       eexists _, _; right; reflexivity.
  rewrite lookup_insert_eq.
  cbv [bind await log alloc modify ret throw fst snd
       jobQueue coreSdk heap next handlers closed trace].
  intros [= <- <-] Hno. exfalso. eapply Hno. reflexivity.
Qed.

Lemma initComponents_unwired_on_failure_witness :
  jobQueue (snd (initComponents noWasmEnv noOptions newFrontend)) = None /\
  handlers (snd (initComponents noWasmEnv noOptions newFrontend)) = ∅.
Proof.
  assert (Hrun : initComponents noWasmEnv noOptions newFrontend
                 = (Rejected (Error "wasm not found"),
                    snd (initComponents noWasmEnv noOptions newFrontend)))
    by (vm_compute; reflexivity).
  destruct (initComponents_unwired_on_failure noWasmEnv noOptions newFrontend _ _ Hrun)
    as (Hjq & _ & Hh & _); [discriminate |].
  split; [exact Hjq | exact Hh].
Defined.

(** X10: whatever happens, one run of [initComponents] sends exactly one
    transport request: the 'initComponents' message whose only argument is
    the options object it was given. *)
Theorem initComponents_one_request (env : Env) (o : BananaCoreSdkOptions)
    (w w' : World) (r : Outcome (gmap string loc)) :
  initComponents env o w = (r, w') ->
  requests (trace w')
    = requests (trace w) ++ [{| fn := "initComponents"; args := [optionsVal o] |}].
Proof.
  intros Hrun.
  destruct (initComponents_run env o w w' r Hrun) as ([k [Hk ->]] & _).
  rewrite requests_app. f_equal.
  destruct k as [| k]; [lia |].
  do 12 (destruct k as [| k]; [reflexivity |]). reflexivity.
Qed.

Lemma initComponents_one_request_witness :
  requests (trace (snd (initComponents calmEnv fourWorkers newFrontend)))
    = [{| fn := "initComponents"; args := [JObj [("numWorkers", JNum 4)]] |}].
Proof.
  apply (initComponents_one_request calmEnv fourWorkers newFrontend _
           (fst (initComponents calmEnv fourWorkers newFrontend))).
  vm_compute; reflexivity.
Defined.

(** X11: an event message naming one of the frontend's data fields
    ([transportClient], [jobQueue], [coreSdk]) is never dispatched: in every
    state, whatever the frontend inherits, delivery fails with a TypeError
    at the first handler and changes nothing. *)
Theorem relayEvent_data_field (env : Env) (p : DispatchMsg) (w : World)
    (h : TransportHandler) (hs : list TransportHandler) :
  handlers w !! "event_msg" = Some (h :: hs) ->
  fn p = "transportClient" \/ fn p = "jobQueue" \/ fn p = "coreSdk" ->
  transportReceive env "event_msg" p w
    = (Rejected (TypeError "this[fn] is not a function"), w).
Proof.
  intros Hh Hfn.
  apply (transportReceive_not_callable env p w h hs Hh).
  destruct Hfn as [-> | [-> | ->]]; unfold member; cbn;
    try discriminate; [destruct (jobQueue w) | destruct (coreSdk w)]; discriminate.
Qed.

Lemma relayEvent_data_field_witness :
  fst (transportReceive calmEnv "event_msg" {| fn := "coreSdk"; args := [] |}
         (afterInit calmEnv noOptions newFrontend))
    = Rejected (TypeError "this[fn] is not a function").
Proof.
  rewrite (relayEvent_data_field calmEnv {| fn := "coreSdk"; args := [] |}
             (afterInit calmEnv noOptions newFrontend) relayEvent []).
  - reflexivity.
  - vm_compute; reflexivity.
  - right; right; reflexivity.
Defined.

(** X14: initializing twice subscribes the relay twice, so that afterwards
    one event message is handled twice, in turn. A message naming
    [initComponents] calls it twice, and each call sends an initialization
    request carrying the first argument. A message naming another callable
    member calls that member, and goes on to the second handler only when
    that call returned; otherwise the delivery ends as the call did. A
    message naming no callable member fails at the first handler. The
    session object of the first run is still on the heap and still has the
    closing listener for DESTROYED, and the two runs hand out different
    stubs. *)
Theorem initComponents_twice (env : Env) (o1 o2 : BananaCoreSdkOptions)
    (w w1 w2 : World) (res1 res2 : gmap string loc) (p : DispatchMsg) :
  handlers w !! "event_msg" = None ->
  initComponents env o1 w = (Resolved res1, w1) ->
  initComponents env o2 w1 = (Resolved res2, w2) ->
  let init := Request {| fn := "initComponents"; args := [hd JUndefined (args p)] |} in
  let w3 := snd (log (Invoke (fn p) (args p)) w2) in
  let run1 := memberCall env w3 (fn p) (args p) in
  handlers w2 !! "event_msg" = Some [relayEvent; relayEvent] /\
  (fn p = "initComponents" ->
   transportReceive env "event_msg" p w2
     = (Resolved tt,
        {| jobQueue := jobQueue w2; coreSdk := coreSdk w2; heap := heap w2;
           next := next w2; handlers := handlers w2; closed := closed w2;
           trace := trace w2 ++ [Invoke (fn p) (args p); init;
                                 Invoke (fn p) (args p); init] |})) /\
  (fn p <> "initComponents" -> member env w2 (fn p) = Callable ->
   transportReceive env "event_msg" p w2
     = match ended run1 with
       | Resolved _ => callTransportHandler env relayEvent p (resume w3 run1)
       | o => (o, resume w3 run1)
       end) /\
  (member env w2 (fn p) <> Callable ->
   transportReceive env "event_msg" p w2
     = (Rejected (TypeError "this[fn] is not a function"), w2)) /\
  (exists ls,
     heap w2 !! (7 + next w)%nat
       = Some (BananaCoreSdk coreSdkRequest (6 + next w)%nat (1 + next w)%nat ls) /\
     closeTransport ∈ default [] (ls !! DESTROYED env)) /\
  res1 !! "coreSdk" <> res2 !! "coreSdk".
Proof.
  intros Hh Hrun1 Hrun2 init w3 run1.
  destruct (initComponents_run env o1 w w1 _ Hrun1) as (_ & _ & _ & Hres1 & _).
  destruct (Hres1 res1 eq_refl) as [Hr1 Hw1].
  destruct (initComponents_run env o2 w1 w2 _ Hrun2) as (_ & _ & _ & Hres2 & _).
  destruct (Hres2 res2 eq_refl) as [Hr2 Hw2].
  assert (Hhs : handlers w2 !! "event_msg" = Some [relayEvent; relayEvent]).
  { rewrite Hw2, Hw1. cbn [afterInit handlers].
    rewrite lookup_insert_eq, lookup_insert_eq, Hh. reflexivity. }
  split; [exact Hhs |]. split; [| split; [| split; [| split]]].
  - intros Hfn. unfold init. clear init run1 w3.
    destruct p as [f a]. cbn [fn args] in *. subst f.
    unfold transportReceive. rewrite Hhs.
    cbn [default from_option id forEach]. unfold bind.
    rewrite relayEvent_run. unfold member at 1.
    cbn [fn args String.eqb Ascii.eqb Bool.eqb]. cbv beta iota zeta.
    rewrite relayEvent_run. unfold member at 1.
    cbn [fn args String.eqb Ascii.eqb Bool.eqb]. cbv beta iota zeta.
    cbv [log modify ret snd jobQueue coreSdk heap next handlers closed trace].
    rewrite <- !app_assoc. reflexivity.
  - intros Hfn Hm. unfold transportReceive. rewrite Hhs.
    cbn [default from_option id forEach]. unfold bind at 1.
    rewrite relayEvent_run, Hm. cbv zeta.
    destruct (String.eqb_spec (fn p) "initComponents") as [E | _]; [contradiction |].
    fold w3. fold run1.
    destruct (ended run1) as [[] | e | ]; try reflexivity.
    unfold bind, ret.
    destruct (callTransportHandler env relayEvent p (resume w3 run1))
      as [[[] | e | ] w4]; reflexivity.
  - intros Hm. exact (transportReceive_not_callable env p w2 _ _ Hhs Hm).
  - exists (<[DESTROYED env := [closeTransport]]> ∅). split.
    + rewrite Hw2, Hw1. heap_read.
    + rewrite lookup_insert_eq. apply list_elem_of_singleton. reflexivity.
  - rewrite Hr1, Hr2, Hw1. cbn [afterInit next].
    rewrite !lookup_singleton_eq. intros [= H]. lia.
Qed.

Lemma initComponents_twice_witness :
  let w2 := afterInit calmEnv fourWorkers (afterInit calmEnv noOptions newFrontend) in
  handlers w2 !! "event_msg" = Some [relayEvent; relayEvent] /\
  requests (trace (snd (transportReceive calmEnv "event_msg"
                          {| fn := "initComponents"; args := [JNum 1; JNum 2] |} w2)))
    = requests (trace w2)
      ++ [{| fn := "initComponents"; args := [JNum 1] |};
          {| fn := "initComponents"; args := [JNum 1] |}].
Proof.
  intros w2.
  assert (Hrun1 : initComponents calmEnv noOptions newFrontend
                  = (Resolved {[ "coreSdk" := 8%nat ]},
                     afterInit calmEnv noOptions newFrontend))
    by (vm_compute; reflexivity).
  assert (Hrun2 : initComponents calmEnv fourWorkers
                    (afterInit calmEnv noOptions newFrontend)
                  = (Resolved {[ "coreSdk" := 17%nat ]}, w2))
    by (vm_compute; reflexivity).
  destruct (initComponents_twice calmEnv noOptions fourWorkers newFrontend _ _ _ _
              {| fn := "initComponents"; args := [JNum 1; JNum 2] |}
              eq_refl Hrun1 Hrun2) as (Hhs & Hinit & _).
  split; [exact Hhs |].
  rewrite (Hinit eq_refl). cbn [snd trace].
  rewrite requests_app. reflexivity.
Defined.

End FrontendMore.

(** ** deployMockBridge and mockAsyncBridge *)

Section BridgeFacts.
Import Bridges.

Lemma planned_length (assets : list EthAddress) (id : option Z) (amount : Z) :
  (length (planned assets id amount) <= 1)%nat.
Proof.
  unfold planned. destruct (assetAt assets id); [destruct (amount =? 0) |]; cbn; lia.
Qed.

Lemma planned_sound (assets : list EthAddress) (id : option Z) (amount : Z)
    (x : EthAddress * Z) :
  x ∈ planned assets id amount ->
  snd x = amount /\ amount <> 0 /\ assetAt assets id = Some (fst x).
Proof.
  unfold planned. destruct (assetAt assets id) as [a |].
  - destruct (Z.eqb_spec amount 0).
    + intros H. apply elem_of_nil in H. contradiction.
    + intros H. apply list_elem_of_singleton in H. subst x. auto.
  - intros H. apply elem_of_nil in H. contradiction.
Qed.

(** One funding step: what it sends is fixed by the plan; only how it ends
    depends on the chain. *)
Lemma fund_run (env : Env) (bridge : EthAddress) (assets : list EthAddress)
    (id : option Z) (amount : Z) (t : Trace) :
  fund env bridge assets id amount t
    = (fst (fund env bridge assets id amount t),
       t ++ map (fundingEffect bridge) (planned assets id amount)) /\
  (planned assets id amount = [] ->
   fst (fund env bridge assets id amount t) = Resolved tt).
Proof.
  unfold fund, planned, mint.
  destruct (assetAt assets id) as [a |].
  - destruct (amount =? 0).
    + cbn. rewrite app_nil_r. auto.
    + unfold fundingEffect. cbn [fst snd map].
      destruct (String.eqb a ZERO); cbv [bind emit modify await ret fst snd].
      * destruct (sendTransaction env _) as [[] | e | ]; split; try reflexivity;
          discriminate.
      * destruct (erc20Mint env _) as [[] | e | ]; split; try reflexivity;
          discriminate.
  - cbn. rewrite app_nil_r. auto.
Qed.

Ltac fund_step :=
  match goal with
  | |- context [fund ?env ?b ?assets ?id ?amt ?T] =>
    let Heq := fresh "Heq" in
    let Hnil := fresh "Hnil" in
    let Hf := fresh "Hf" in
    destruct (fund_run env b assets id amt T) as [Heq Hnil];
    rewrite Heq; clear Heq;
    destruct (fst (fund env b assets id amt T)) as [[] | ? | ] eqn:Hf
  end.

(** Every run of [deployMockBridge]: an initial segment of the setup calls,
    then, once the call data is built, an initial segment of the funding
    plan; a completed run has gone through all of both. *)
Lemma deployMockBridge_run (env : Env) (assets : list EthAddress)
    (params : MockBridgeParams) (t t' : Trace) (r : Outcome BridgeCallData) :
  deployMockBridge env assets params t = (r, t') ->
  exists k b pl rest,
    (1 <= k <= 4)%nat /\
    t' = t ++ take k (setupEvents env params b) ++ map (fundingEffect b) pl /\
    fundingPlan assets params = pl ++ rest /\
    ((pl = [] /\ forall cd, r <> Resolved cd) \/
     (k = 4%nat /\
      deployBridge env (t ++ take 1 (setupEvents env params b)) = Resolved b /\
      exists bridges,
        getSupportedBridges env (t ++ setupEvents env params b) = Resolved bridges /\
        newBridgeCallData env (callDataOf params bridges) = None /\
        forall cd, r = Resolved cd -> rest = [] /\ cd = callDataOf params bridges)).
Proof.
  unfold deployMockBridge. cbv zeta.
  cbv [bind emit modify await ret throw fst snd].
  destruct (deployBridge env _) as [b | e | ] eqn:Hb.
  2,3: intros [= <- <-]; exists 1%nat, ZERO, [], (fundingPlan assets params);
       cbn [take setupEvents map]; rewrite app_nil_r;
       (split; [lia |]); (split; [reflexivity |]); (split; [reflexivity |]);
       left; split; [reflexivity | intros; discriminate].
  destruct (bridgeDeployed env _) as [[] | e | ].
  2,3: intros [= <- <-]; exists 2%nat, b, [], (fundingPlan assets params);
       cbn [take setupEvents map]; rewrite app_nil_r, <- !app_assoc;
       (split; [lia |]); (split; [reflexivity |]); (split; [reflexivity |]);
       left; split; [reflexivity | intros; discriminate].
  destruct (setSupportedBridge env _) as [[] | e | ].
  2,3: intros [= <- <-]; exists 3%nat, b, [], (fundingPlan assets params);
       cbn [take setupEvents map]; rewrite app_nil_r, <- !app_assoc;
       (split; [lia |]); (split; [reflexivity |]); (split; [reflexivity |]);
       left; split; [reflexivity | intros; discriminate].
  destruct (getSupportedBridges env _) as [bridges | e | ] eqn:Hbs.
  2,3: intros [= <- <-]; exists 4%nat, b, [], (fundingPlan assets params);
       cbn [take setupEvents map]; rewrite app_nil_r, <- !app_assoc;
       (split; [lia |]); (split; [reflexivity |]); (split; [reflexivity |]);
       left; split; [reflexivity | intros; discriminate].
  fold (callDataOf params bridges).
  destruct (newBridgeCallData env (callDataOf params bridges)) as [e |] eqn:Hcd.
  { intros [= <- <-]; exists 4%nat, b, [], (fundingPlan assets params);
    cbn [take setupEvents map]; rewrite app_nil_r, <- !app_assoc;
    (split; [lia |]); (split; [reflexivity |]); (split; [reflexivity |]);
    left; split; [reflexivity | intros; discriminate]. }
  rewrite <- !app_assoc in Hbs. cbn [app] in Hbs.
  unfold fundingPlan. cbv zeta.
  set (p1 := planned assets (Some (default 1 (inputAssetIdA params))) _).
  set (p2 := planned assets (Some (default 2 (outputAssetIdA params))) _).
  set (p3 := planned assets (inputAssetIdB params) _).
  set (p4 := planned assets (outputAssetIdB params) _).
  assert (Hreached : forall (r0 : Outcome BridgeCallData) (rest0 : list (EthAddress * Z)),
    (forall cd, r0 = Resolved cd -> rest0 = [] /\ cd = callDataOf params bridges) ->
    4%nat = 4%nat /\
    deployBridge env (t ++ take 1 (setupEvents env params b)) = Resolved b /\
    exists bridges0,
      getSupportedBridges env (t ++ setupEvents env params b) = Resolved bridges0 /\
      newBridgeCallData env (callDataOf params bridges0) = None /\
      forall cd, r0 = Resolved cd -> rest0 = [] /\ cd = callDataOf params bridges0).
  { intros r0 rest0 Hr0. split; [reflexivity |]. split; [exact Hb |].
    exists bridges. split; [exact Hbs |]. split; [exact Hcd | exact Hr0]. }
  fund_step.
  2,3: intros [= <- <-]; exists 4%nat, b, p1, (p2 ++ p3 ++ p4);
       cbn [take setupEvents]; rewrite <- !app_assoc;
       (split; [lia |]); (split; [reflexivity |]); (split; [reflexivity |]);
       right; apply Hreached; intros; discriminate.
  fund_step.
  2,3: intros [= <- <-]; exists 4%nat, b, (p1 ++ p2), (p3 ++ p4);
       cbn [take setupEvents]; rewrite map_app, <- !app_assoc;
       (split; [lia |]); (split; [reflexivity |]); (split; [reflexivity |]);
       right; apply Hreached; intros; discriminate.
  fund_step.
  2,3: intros [= <- <-]; exists 4%nat, b, (p1 ++ p2 ++ p3), p4;
       cbn [take setupEvents]; rewrite !map_app, <- !app_assoc;
       (split; [lia |]); (split; [reflexivity |]); (split; [reflexivity |]);
       right; apply Hreached; intros; discriminate.
  fund_step.
  2,3: intros [= <- <-]; exists 4%nat, b, (p1 ++ p2 ++ p3 ++ p4), [];
       cbn [take setupEvents]; rewrite !map_app, <- !app_assoc, ?app_nil_r;
       (split; [lia |]); (split; [reflexivity |]); (split; [reflexivity |]);
       right; apply Hreached; intros; discriminate.
  intros [= <- <-]. exists 4%nat, b, (p1 ++ p2 ++ p3 ++ p4), [].
  cbn [take setupEvents]. rewrite !map_app, <- !app_assoc, ?app_nil_r.
  (split; [lia |]); (split; [reflexivity |]); (split; [reflexivity |]).
  right. apply Hreached. intros cd [= <-]. split; reflexivity.
Qed.

Lemma assetAt_elem (assets : list EthAddress) (id : option Z) (a : EthAddress) :
  assetAt assets id = Some a -> a ∈ assets.
Proof.
  unfold assetAt. destruct id as [i |]; [| discriminate].
  destruct (i <? 0); [discriminate |]. apply list_elem_of_lookup_2.
Qed.

Lemma fundingPlan_sound (assets : list EthAddress) (params : MockBridgeParams)
    (x : EthAddress * Z) :
  x ∈ fundingPlan assets params -> snd x <> 0 /\ fst x ∈ assets.
Proof.
  unfold fundingPlan. cbv zeta. rewrite !elem_of_app.
  intros [H | [H | [H | H]]]; apply planned_sound in H as (-> & Hnz & Hat);
    (split; [exact Hnz | exact (assetAt_elem _ _ _ Hat)]).
Qed.

Lemma fundingPlan_length (assets : list EthAddress) (params : MockBridgeParams) :
  (length (fundingPlan assets params) <= 4)%nat.
Proof.
  unfold fundingPlan. cbv zeta. rewrite !length_app.
  repeat match goal with
         | |- context [length (planned ?a ?i ?m)] =>
           let H := fresh in pose proof (planned_length a i m) as H;
           set (length (planned a i m)) in *
         end.
  lia.
Qed.

Lemma setup_not_funding (env : Env) (params : MockBridgeParams) (b : EthAddress)
    (k : nat) :
  filter (fun e => isFunding e = true) (take k (setupEvents env params b)) = [].
Proof. do 5 (destruct k as [| k]; [reflexivity |]). reflexivity. Qed.

Lemma fundingEffect_funding (b : EthAddress) (pl : list (EthAddress * Z)) :
  filter (fun e => isFunding e = true) (map (fundingEffect b) pl)
    = map (fundingEffect b) pl.
Proof.
  induction pl as [| x pl IH]; [reflexivity |].
  cbn [map]. rewrite filter_cons_True, IH; [reflexivity |].
  unfold fundingEffect. destruct (String.eqb (fst x) ZERO); reflexivity.
Qed.

(** X15: a completed [deployMockBridge] has deployed the bridge, waited for
    it, registered it with the rollup processor, asked for the supported
    bridges, and then sent exactly the planned funding, in order. The call
    data it returns carries as bridge id the number of bridges the rollup
    processor reported after the registration, input asset 1 and output
    asset 2 unless given, and the B assets and aux data as given. *)
Theorem deployMockBridge_completed (env : Env) (assets : list EthAddress)
    (params : MockBridgeParams) (t t' : Trace) (cd : BridgeCallData) :
  deployMockBridge env assets params t = (Resolved cd, t') ->
  exists b bridges,
    t' = t ++ setupEvents env params b
           ++ map (fundingEffect b) (fundingPlan assets params) /\
    deployBridge env (t ++ take 1 (setupEvents env params b)) = Resolved b /\
    getSupportedBridges env (t ++ setupEvents env params b) = Resolved bridges /\
    bridgeAddressId cd = Z.of_nat (length bridges) /\
    callInputAssetIdA cd = default 1 (inputAssetIdA params) /\
    callOutputAssetIdA cd = default 2 (outputAssetIdA params) /\
    callInputAssetIdB cd = inputAssetIdB params /\
    callOutputAssetIdB cd = outputAssetIdB params /\
    callAuxData cd = default 0 (auxData params).
Proof.
  intros Hrun.
  destruct (deployMockBridge_run env assets params t t' _ Hrun)
    as (k & b & pl & rest & _ & Ht & Hplan & [[_ Hno] | (-> & Hb & bridges & Hbs & _ & Hcd)]).
  - exfalso. exact (Hno cd eq_refl).
  - destruct (Hcd cd eq_refl) as [-> ->]. rewrite app_nil_r in Hplan. subst pl.
    exists b, bridges. repeat split; assumption.
Qed.

Lemma deployMockBridge_completed_witness :
  exists t' cd,
    deployMockBridge sampleEnv sampleAssets noParams [] = (Resolved cd, t') /\
    bridgeAddressId cd = 2 /\
    filter (fun e => isFunding e = true) t' = [Erc20Mint "0x0b7c" "0xb01d" 1000].
Proof.
  assert (Hrun : deployMockBridge sampleEnv sampleAssets noParams []
                 = (Resolved (callDataOf noParams [("0xaaaa", 300000); ("0xb01d", 300000)]),
                    snd (deployMockBridge sampleEnv sampleAssets noParams [])))
    by (vm_compute; reflexivity).
  eexists _, _. split; [exact Hrun |].
  destruct (deployMockBridge_completed sampleEnv sampleAssets noParams [] _ _ Hrun)
    as (b & bridges & Ht & Hb & Hbs & Hid & _).
  injection Hb as <-. injection Hbs as <-.
  split; [exact Hid |]. rewrite Ht. vm_compute. reflexivity.
Defined.

(** X16: whatever the chain does, [deployMockBridge] moves funds only as
    planned: at most four transfers, never of a zero amount, only of assets
    in the list it was given, ETH by a plain transaction and tokens by
    their [mint], and always to the bridge it has just registered with the
    rollup processor. *)
Theorem deployMockBridge_funds_as_planned (env : Env) (assets : list EthAddress)
    (params : MockBridgeParams) (t t' : Trace) (r : Outcome BridgeCallData) :
  deployMockBridge env assets params t = (r, t') ->
  exists evs,
    t' = t ++ evs /\
    (length (filter (fun e => isFunding e = true) evs) <= 4)%nat /\
    (forall v to, SendTransaction v to ∈ evs ->
       ZERO ∈ assets /\
       (exists amount, amount <> 0 /\ v = ("0x" ++ toString16 amount)%string) /\
       exists gas, SetSupportedBridge to gas ∈ evs) /\
    (forall a to amount, Erc20Mint a to amount ∈ evs ->
       a ∈ assets /\ a <> ZERO /\ amount <> 0 /\
       exists gas, SetSupportedBridge to gas ∈ evs).
Proof.
  intros Hrun.
  destruct (deployMockBridge_run env assets params t t' _ Hrun)
    as (k & b & pl & rest & Hk & Ht & Hplan & Hreach).
  exists (take k (setupEvents env params b) ++ map (fundingEffect b) pl).
  split; [exact Ht |].
  assert (Hpl : forall x, x ∈ pl -> snd x <> 0 /\ fst x ∈ assets).
  { intros x Hx. apply (fundingPlan_sound assets params). rewrite Hplan.
    apply elem_of_app. left. exact Hx. }
  assert (Hset : pl <> [] ->
            exists gas, SetSupportedBridge b gas
                          ∈ take k (setupEvents env params b)
                            ++ map (fundingEffect b) pl).
  { intros Hne. destruct Hreach as [[Hnil _] | [-> _]]; [contradiction |].
    eexists. apply elem_of_app. left. cbn [take setupEvents].
    do 2 (apply elem_of_cons; right). apply elem_of_cons. left. reflexivity. }
  assert (Hsetup : forall e, e ∈ take k (setupEvents env params b) ->
                             isFunding e = false).
  { intros e He. apply subseteq_take in He. unfold setupEvents in He.
    repeat (apply elem_of_cons in He as [-> | He]; [reflexivity |]).
    apply elem_of_nil in He. contradiction. }
  split; [| split].
  - rewrite filter_app, setup_not_funding, fundingEffect_funding.
    cbn [app]. rewrite length_map. pose proof (fundingPlan_length assets params) as Hlen.
    rewrite Hplan, length_app in Hlen. lia.
  - intros v to Hin. apply elem_of_app in Hin as [Hin | Hin].
    { apply Hsetup in Hin. discriminate. }
    apply list_elem_of_fmap in Hin as (x & Hx & Hxin).
    destruct (Hpl x Hxin) as [Hnz Hass].
    unfold fundingEffect in Hx.
    destruct (String.eqb_spec (fst x) ZERO) as [Hz | Hz]; [| discriminate].
    injection Hx as -> ->. rewrite Hz in Hass.
    split; [exact Hass |]. split; [eauto |].
    apply Hset. intros ->. apply elem_of_nil in Hxin. contradiction.
  - intros a to amount Hin. apply elem_of_app in Hin as [Hin | Hin].
    { apply Hsetup in Hin. discriminate. }
    apply list_elem_of_fmap in Hin as (x & Hx & Hxin).
    destruct (Hpl x Hxin) as [Hnz Hass].
    unfold fundingEffect in Hx.
    destruct (String.eqb_spec (fst x) ZERO) as [Hz | Hz]; [discriminate |].
    injection Hx as -> -> ->.
    repeat split; try assumption.
    apply Hset. intros ->. apply elem_of_nil in Hxin. contradiction.
Qed.

Lemma deployMockBridge_funds_as_planned_witness :
  exists evs,
    snd (deployMockBridge sampleEnv sampleAssets noParams []) = [] ++ evs /\
    (length (filter (fun e => isFunding e = true) evs) <= 4)%nat.
Proof.
  destruct (deployMockBridge_funds_as_planned sampleEnv sampleAssets noParams []
              (snd (deployMockBridge sampleEnv sampleAssets noParams []))
              (fst (deployMockBridge sampleEnv sampleAssets noParams [])))
    as (evs & Ht & Hlen & _); [vm_compute; reflexivity |].
  exists evs. split; [exact Ht | exact Hlen].
Defined.

(** X17: with [maxTxs] zero, or with an empty asset list, no run of
    [deployMockBridge] moves any funds: it stops after the setup calls. *)
Theorem deployMockBridge_nothing_to_fund (env : Env) (assets : list EthAddress)
    (params : MockBridgeParams) (t t' : Trace) (r : Outcome BridgeCallData) :
  maxTxs params = Some 0 \/ assets = [] ->
  deployMockBridge env assets params t = (r, t') ->
  exists k b, t' = t ++ take k (setupEvents env params b).
Proof.
  intros Hedge Hrun.
  destruct (deployMockBridge_run env assets params t t' _ Hrun)
    as (k & b & pl & rest & _ & Ht & Hplan & _).
  assert (Hnil : fundingPlan assets params = []).
  { unfold fundingPlan, planned. cbv zeta. destruct Hedge as [-> | ->].
    - cbn [default from_option id]. rewrite !Z.mul_0_r. cbn [Z.eqb].
      repeat match goal with
             | |- context [assetAt ?a ?i] => destruct (assetAt a i)
             end; reflexivity.
    - assert (Hat : forall id, assetAt [] id = None).
      { intros [i |]; [| reflexivity]. unfold assetAt.
        destruct (i <? 0); [reflexivity | apply lookup_nil]. }
      rewrite !Hat. reflexivity. }
  rewrite Hnil in Hplan. symmetry in Hplan. apply app_eq_nil in Hplan as [-> _].
  exists k, b. rewrite Ht. cbn [map]. rewrite app_nil_r. reflexivity.
Qed.

Lemma deployMockBridge_nothing_to_fund_witness :
  filter (fun e => isFunding e = true)
    (snd (deployMockBridge sampleEnv [] noParams [])) = [].
Proof.
  destruct (deployMockBridge_nothing_to_fund sampleEnv [] noParams []
              (snd (deployMockBridge sampleEnv [] noParams []))
              (fst (deployMockBridge sampleEnv [] noParams [])))
    as (k & b & ->); [right; reflexivity | vm_compute; reflexivity |].
  apply (setup_not_funding sampleEnv noParams b k).
Defined.

(** X18: no funds move before the call data has been accepted: a run of
    [deployMockBridge] either consists of setup calls only, or the
    [BridgeCallData] constructor has accepted the call data built from the
    reported bridges. With a constructor that refuses, no run completes. *)
Theorem deployMockBridge_call_data_first (env : Env) (assets : list EthAddress)
    (params : MockBridgeParams) (t t' : Trace) (r : Outcome BridgeCallData) :
  deployMockBridge env assets params t = (r, t') ->
  ((exists k b, t' = t ++ take k (setupEvents env params b)) \/
   (exists b bridges,
      getSupportedBridges env (t ++ setupEvents env params b) = Resolved bridges /\
      newBridgeCallData env (callDataOf params bridges) = None)) /\
  ((forall cd, newBridgeCallData env cd <> None) ->
   (forall cd, r <> Resolved cd) /\
   exists k b, t' = t ++ take k (setupEvents env params b)).
Proof.
  intros Hrun.
  destruct (deployMockBridge_run env assets params t t' _ Hrun)
    as (k & b & pl & rest & _ & Ht & _ & [[-> Hno] | (_ & _ & bridges & Hbs & Hcd & _)]).
  - assert (Hsetup : exists k b, t' = t ++ take k (setupEvents env params b)).
    { exists k, b. rewrite Ht. cbn [map]. rewrite app_nil_r. reflexivity. }
    split; [left; exact Hsetup |]. intros _. split; [exact Hno | exact Hsetup].
  - split; [right; exists b, bridges; split; assumption |].
    intros Hrefuse. exfalso. exact (Hrefuse _ Hcd).
Qed.

Lemma deployMockBridge_call_data_first_witness :
  let env := {| rollupProcessorAddress := rollupProcessorAddress sampleEnv;
                deployBridge := deployBridge sampleEnv;
                bridgeDeployed := bridgeDeployed sampleEnv;
                setSupportedBridge := setSupportedBridge sampleEnv;
                getSupportedBridges := getSupportedBridges sampleEnv;
                newBridgeCallData := fun _ => Some (Error "invalid call data");
                sendTransaction := sendTransaction sampleEnv;
                erc20Mint := erc20Mint sampleEnv;
                getSupportedBridge := getSupportedBridge sampleEnv |} in
  exists k b,
    snd (deployMockBridge env sampleAssets noParams [])
      = [] ++ take k (setupEvents env noParams b).
Proof.
  intros env.
  destruct (deployMockBridge_call_data_first env sampleAssets noParams []
              (snd (deployMockBridge env sampleAssets noParams []))
              (fst (deployMockBridge env sampleAssets noParams [])))
    as [_ H]; [vm_compute; reflexivity |].
  apply H. intros cd. discriminate.
Defined.

(** X19: ETH is sent as a transaction whose value is the amount in
    hexadecimal: for a positive amount, [mint] of the zero address makes
    exactly one [sendTransaction], to the bridge, with a value that reads
    back as the amount, and ends as that transaction does. *)
Theorem mint_eth_value (env : Env) (b : EthAddress) (amount : Z) (t : Trace) :
  0 < amount ->
  exists v,
    HexString.to_Z v = amount /\
    snd (mint env b ZERO amount t) = t ++ [SendTransaction v b] /\
    fst (mint env b ZERO amount t)
      = match sendTransaction env (t ++ [SendTransaction v b]) with
        | Resolved _ => Resolved tt
        | Rejected e => Rejected e
        | Pending => Pending
        end.
Proof.
  intros Hpos. destruct amount as [| p | p]; try lia.
  exists (HexString.of_Z (Z.pos p)). split; [apply HexString.to_Z_of_Z |].
  unfold mint. cbn [Z.eqb]. rewrite String.eqb_refl.
  cbv [bind emit modify await ret fst snd].
  change ("0x" ++ toString16 (Z.pos p))%string with (HexString.of_Z (Z.pos p)).
  destruct (sendTransaction env _) as [[] | e | ]; split; reflexivity.
Qed.

Lemma mint_eth_value_witness :
  exists v,
    HexString.to_Z v = 255 /\
    snd (mint sampleEnv "0xb01d" ZERO 255 []) = [SendTransaction v "0xb01d"].
Proof.
  destruct (mint_eth_value sampleEnv "0xb01d" 255 []) as (v & Hv & Ht & _); [lia |].
  exists v. split; [exact Hv | exact Ht].
Defined.

(** X20: [mockAsyncBridge] deploys exactly one bridge and deploys it as
    asynchronous whatever [params.isAsync] says, with every other parameter
    passed on. When it completes, the call data is the one
    [deployMockBridge] built and the bridge handed back is the one the
    rollup processor reports under that call data's bridge id. *)
Theorem mockAsyncBridge_run (env : Env) (assets : list EthAddress)
    (params : MockBridgeParams) (t t' : Trace) (r : Outcome AsyncBridge) :
  mockAsyncBridge env assets params t = (r, t') ->
  (exists evs,
     t' = t ++ DeployBridge (rollupProcessorAddress env)
                 (default true (canConvert params))
                 (default 10 (outputValueA params))
                 (default 0 (outputValueB params))
                 (default (default 10 (outputValueA params)) (returnValueA params))
                 (default (default 0 (outputValueB params)) (returnValueB params))
                 (default 0 (returnInputValue params))
                 true :: evs /\
     forall e, e ∈ evs ->
       match e with DeployBridge _ _ _ _ _ _ _ _ => False | _ => True end) /\
  (forall ab, r = Resolved ab ->
     exists t1,
       deployMockBridge env assets (asAsync params) t
         = (Resolved (bridgeCallData ab), t1) /\
       t' = t1 ++ [GetSupportedBridge (bridgeAddressId (bridgeCallData ab))] /\
       getSupportedBridge env t' = Resolved (bridge ab)).
Proof.
  unfold mockAsyncBridge. unfold bind at 1.
  destruct (deployMockBridge env assets (asAsync params) t) as [r1 t1] eqn:H1.
  destruct (deployMockBridge_run env assets (asAsync params) t t1 _ H1)
    as (k & b & pl & rest & [Hk _] & Ht1 & _).
  destruct k as [| k]; [lia |].
  cbn [take setupEvents asAsync canConvert outputValueA outputValueB returnValueA
       returnValueB returnInputValue isAsync default from_option id] in Ht1.
  assert (Hrest : forall e,
    e ∈ take k [Deployed;
                SetSupportedBridge b (default 300000 (bridgeGasLimit (asAsync params)));
                GetSupportedBridges] ++ map (fundingEffect b) pl ->
    match e with DeployBridge _ _ _ _ _ _ _ _ => False | _ => True end).
  { intros e He. apply elem_of_app in He as [He | He].
    - apply subseteq_take in He.
      repeat (apply elem_of_cons in He as [-> | He]; [exact I |]).
      apply elem_of_nil in He. contradiction.
    - apply list_elem_of_fmap in He as (x & -> & _). unfold fundingEffect.
      destruct (String.eqb (fst x) ZERO); exact I. }
  destruct r1 as [cd | e | ].
  - cbv [bind emit modify await ret fst snd].
    destruct (getSupportedBridge env _) as [addr | e | ] eqn:Haddr;
      intros [= <- <-]; (split; [| try (intros; discriminate)]).
    + eexists. rewrite Ht1. rewrite <- !app_assoc. cbn [app].
      split; [reflexivity |]. intros e He.
      rewrite app_assoc in He. apply elem_of_app in He as [He | He];
        [exact (Hrest e He) |].
      apply list_elem_of_singleton in He. subst e. exact I.
    + intros ab [= <-]. exists t1. cbn [bridgeCallData bridge].
      split; [reflexivity |]. split; [reflexivity | exact Haddr].
    + eexists. rewrite Ht1. rewrite <- !app_assoc. cbn [app].
      split; [reflexivity |]. intros e0 He.
      rewrite app_assoc in He. apply elem_of_app in He as [He | He];
        [exact (Hrest e0 He) |].
      apply list_elem_of_singleton in He. subst e0. exact I.
    + eexists. rewrite Ht1. rewrite <- !app_assoc. cbn [app].
      split; [reflexivity |]. intros e0 He.
      rewrite app_assoc in He. apply elem_of_app in He as [He | He];
        [exact (Hrest e0 He) |].
      apply list_elem_of_singleton in He. subst e0. exact I.
  - intros [= <- <-]. split; [| intros; discriminate].
    eexists. rewrite Ht1. cbn [app]. split; [reflexivity | exact Hrest].
  - intros [= <- <-]. split; [| intros; discriminate].
    eexists. rewrite Ht1. cbn [app]. split; [reflexivity | exact Hrest].
Qed.

Lemma mockAsyncBridge_run_witness :
  exists ab t',
    mockAsyncBridge sampleEnv sampleAssets noParams [] = (Resolved ab, t') /\
    bridge ab = "0xb01d" /\
    head t' = Some (DeployBridge "0x5011" true 10 0 10 0 0 true).
Proof.
  assert (Hrun : mockAsyncBridge sampleEnv sampleAssets noParams []
                 = (Resolved {| bridgeCallData :=
                                  callDataOf noParams
                                    [("0xaaaa", 300000); ("0xb01d", 300000)];
                                bridge := "0xb01d" |},
                    snd (mockAsyncBridge sampleEnv sampleAssets noParams [])))
    by (vm_compute; reflexivity).
  eexists _, _. split; [exact Hrun |]. split; [reflexivity |].
  destruct (mockAsyncBridge_run sampleEnv sampleAssets noParams [] _ _ Hrun)
    as [(evs & -> & _) _].
  reflexivity.
Defined.

End BridgeFacts.
